(** * publicApiRoutes.js : the signed key-provisioning endpoint

    A shallow embedding of [src/routes/publicApiRoutes.js]: the IP allow-list
    middleware, the HMAC/timestamp middleware and the handler of
    [POST /api/generate-key], followed by the properties the specification
    states about them.

    JavaScript values are an inductive type; objects are association lists in
    insertion order (the order [JSON.stringify] and [res.json] see).  Strings
    are sequences of 8-bit code units, which is what Node gives for header
    values; code units above U+00FF are outside the model.  Numbers are NaN,
    the two infinities, or an exact rational: every finite double is such a
    rational.  The file performs two additions on numbers.  The difference of
    [Date.now()] and the parsed timestamp is exact on doubles when the
    timestamp is below 2^53 in magnitude; beyond that [parseInt] rounds, but
    to a value that is still 2^53 or more away from zero, so the difference
    stays on the same side of 300000.  The day of the month plus a day count
    is exact on doubles for an integral count below 2^53. *)

From Stdlib Require Import ZArith QArith Qabs List String Ascii Bool Lia.
From Stdlib Require Import DecimalString DecimalPos.
Import ListNotations.

#[local] Set Warnings "-register-all".

Local Open Scope string_scope.
Local Open Scope Z_scope.

(** ** Numbers *)

Inductive number : Type :=
| NaN
| Inf (negative : bool)
| Fin (q : Q).

Definition of_Z (z : Z) : number := Fin (inject_Z z).

Definition Qlt_bool (a b : Q) : bool := negb (Qle_bool b a).

(** [a < b] of the language: false as soon as one side is NaN. *)
Definition num_lt (a b : number) : bool :=
  match a, b with
  | NaN, _ | _, NaN => false
  | Inf true, Inf true => false
  | Inf true, _ => true
  | _, Inf true => false
  | Inf false, _ => false
  | Fin _, Inf false => true
  | Fin x, Fin y => Qlt_bool x y
  end.

(** [a <= b] of the language. *)
Definition num_le (a b : number) : bool :=
  match a, b with
  | NaN, _ | _, NaN => false
  | Inf true, _ => true
  | _, Inf false => true
  | Inf false, _ => false
  | Fin _, Inf true => false
  | Fin x, Fin y => Qle_bool x y
  end.

(** [a > b] is [b < a]. *)
Definition num_gt (a b : number) : bool := num_lt b a.

Definition num_neg (a : number) : number :=
  match a with
  | NaN => NaN
  | Inf s => Inf (negb s)
  | Fin x => Fin (Qopp x)
  end.

(** The sum of the language on the numbers where a double holds it exactly:
    integers below 2^53, NaN and the infinities.  On other fractions the
    language rounds and this sum does not. *)
Definition num_add (a b : number) : number :=
  match a, b with
  | NaN, _ | _, NaN => NaN
  | Inf s, Inf s' => if Bool.eqb s s' then Inf s else NaN
  | Inf s, Fin _ | Fin _, Inf s => Inf s
  | Fin x, Fin y => Fin (Qplus x y)
  end.

Definition num_sub (a b : number) : number := num_add a (num_neg b).

(** [Math.abs] *)
Definition Math_abs (a : number) : number :=
  match a with
  | NaN => NaN
  | Inf _ => Inf false
  | Fin x => Fin (Qabs x)
  end.

(** ToBoolean on a number: NaN and the zeros are falsy. *)
Definition num_truthy (a : number) : bool :=
  match a with
  | NaN => false
  | Inf _ => true
  | Fin x => negb (Qeq_bool x 0)
  end.

(** Truncation toward zero. *)
Definition Qtrunc (x : Q) : Z := Z.quot (Qnum x) (Zpos (Qden x)).

(** ToIntegerOrInfinity: NaN becomes 0, finite values are truncated toward
    zero; [None] stands for an infinity. *)
Definition ToIntegerOrInfinity (a : number) : option Z :=
  match a with
  | NaN => Some 0
  | Inf _ => None
  | Fin x => Some (Qtrunc x)
  end.

(** ** Strings *)

Definition code (c : ascii) : Z := Z.of_N (N_of_ascii c).

(** StrWhiteSpaceChar, restricted to 8-bit code units: TAB, LF, VT, FF, CR,
    SP and NBSP. *)
Definition is_whitespace (c : ascii) : bool :=
  let n := code c in
  ((9 <=? n) && (n <=? 13)) || (n =? 32) || (n =? 160).

Fixpoint trimStart (s : string) : string :=
  match s with
  | String c rest => if is_whitespace c then trimStart rest else s
  | EmptyString => EmptyString
  end.

Fixpoint string_rev_onto (s acc : string) : string :=
  match s with
  | EmptyString => acc
  | String c rest => string_rev_onto rest (String c acc)
  end.

Definition string_rev (s : string) : string := string_rev_onto s EmptyString.

Definition trimEnd (s : string) : string := string_rev (trimStart (string_rev s)).

(** [String.prototype.trim] *)
Definition trim (s : string) : string := trimEnd (trimStart s).

(** [s.substring(0, n)] *)
Definition substring_to (n : nat) (s : string) : string := String.substring 0 n s.

(** Value of a digit in the given radix, if it is one. *)
Definition digit_value (radix : Z) (c : ascii) : option Z :=
  let n := code c in
  let v :=
    if (48 <=? n) && (n <=? 57) then Some (n - 48)
    else if (97 <=? n) && (n <=? 122) then Some (n - 87)
    else if (65 <=? n) && (n <=? 90) then Some (n - 55)
    else None in
  match v with
  | Some d => if d <? radix then Some d else None
  | None => None
  end.

(** Reads the longest prefix of digits; [acc] is [None] until a digit is seen. *)
Fixpoint read_digits (radix : Z) (s : string) (acc : option Z) : option Z :=
  match s with
  | EmptyString => acc
  | String c rest =>
      match digit_value radix c with
      | Some d =>
          read_digits radix rest
            (Some (match acc with Some a => a * radix + d | None => d end))
      | None => acc
      end
  end.

(** [parseInt(s)] with no radix argument: leading white space is skipped, an
    optional sign is read, a [0x]/[0X] prefix selects radix 16, and the longest
    prefix of digits is the result; no digit at all is NaN. *)
Definition parseInt (s : string) : number :=
  let s1 := trimStart s in
  let '(sign, s2) :=
    match s1 with
    | String "-" rest => (-1, rest)
    | String "+" rest => (1, rest)
    | _ => (1, s1)
    end in
  let '(radix, s3) :=
    match s2 with
    | String "0" (String "x" rest) => (16, rest)
    | String "0" (String "X" rest) => (16, rest)
    | _ => (10, s2)
    end in
  match read_digits radix s3 None with
  | Some z => of_Z (sign * z)
  | None => NaN
  end.

(** ** Values *)

(** A Date object carries its time value: milliseconds since the epoch, or
    [None] for the NaN of an invalid date. *)
Inductive value : Type :=
| VUndefined
| VNull
| VBool (b : bool)
| VNumber (n : number)
| VString (s : string)
| VDate (t : option Z)
| VArray (items : list value)
| VObject (fields : list (string * value)).

Definition typeof (v : value) : string :=
  match v with
  | VUndefined => "undefined"
  | VNull => "object"
  | VBool _ => "boolean"
  | VNumber _ => "number"
  | VString _ => "string"
  | VDate _ | VArray _ | VObject _ => "object"
  end.

(** ToBoolean *)
Definition truthy (v : value) : bool :=
  match v with
  | VUndefined | VNull => false
  | VBool b => b
  | VNumber n => num_truthy n
  | VString s => negb (s =? "")%string
  | VDate _ | VArray _ | VObject _ => true
  end.

Fixpoint lookup (k : string) (fields : list (string * value)) : value :=
  match fields with
  | [] => VUndefined
  | (k', v) :: rest => if (k =? k')%string then v else lookup k rest
  end.

(** [o.k] on a value that is neither [undefined] nor [null]; none of the
    property names read by this file exists on a primitive, an array or a
    date. *)
Definition get (o : value) (k : string) : value :=
  match o with
  | VObject fields => lookup k fields
  | _ => VUndefined
  end.

(** The properties of [o] other than [k]: the rest of [{ k, ...rest } = o]. *)
Definition without (k : string) (fields : list (string * value)) : list (string * value) :=
  filter (fun kv => negb (fst kv =? k)%string) fields.

(** A destructuring default [x = d]: used when the property is [undefined]. *)
Definition or_default (v d : value) : value :=
  match v with
  | VUndefined => d
  | _ => v
  end.

(** [o] has an own property [k]. *)
Fixpoint has_property (k : string) (fields : list (string * value)) : bool :=
  match fields with
  | [] => false
  | (k', _) :: rest => (k =? k')%string || has_property k rest
  end.

(** ToPrimitive throws a TypeError.  A value here is made of data only: no
    property of it is callable, as in what [JSON.parse] returns.  An object is
    converted by the [toString] it inherits, unless an own property of that
    name hides it: then no method yields a primitive and the conversion
    throws.  An array is converted by joining the strings of its elements, and
    throws when one of them does ([undefined] and [null] join as the empty
    string). *)
Fixpoint ToPrimitive_throws (v : value) : bool :=
  match v with
  | VObject fields => has_property "toString" fields
  | VArray items => existsb ToPrimitive_throws items
  | _ => false
  end.

(** ** The host: built-ins and repository modules that are not part of the
    routes file, taken as parameters *)

Record Host : Type := {
  (** [crypto.createHmac('sha256', key).update(data).digest('hex')] *)
  hmac_sha256_hex : string -> string -> string;
  (** [JSON.stringify]; [None] is its [undefined] result *)
  JSON_stringify : value -> option string;
  (** ToNumber on a string *)
  StringToNumber : string -> number;
  (** ToString on a number *)
  NumberToString : number -> string;
  (** ToString on an array, an object or a date *)
  ObjectToString : value -> string;
  (** LocalTZA(t, isUTC): the offset of local time, in milliseconds *)
  LocalTZA : Z -> bool -> Z;
  (** [getISOStringWithTimezone] of [utils/dateHelper] *)
  getISOStringWithTimezone : value -> string
}.

Section Conversions.

Variable host : Host.

(** ToString, as a template literal applies it, where it does not throw
    ([ToPrimitive_throws] says where it does, and [template] below is the
    conversion with its throw). *)
Definition ToString (v : value) : string :=
  match v with
  | VUndefined => "undefined"
  | VNull => "null"
  | VBool true => "true"
  | VBool false => "false"
  | VNumber n => NumberToString host n
  | VString s => s
  | VDate _ | VArray _ | VObject _ => ObjectToString host v
  end.

(** ToNumber, where it does not throw ([ToPrimitive_throws] says where it
    does); an object goes through ToPrimitive with hint number, which gives a
    date's time value and the string form of anything else. *)
Definition ToNumber (v : value) : number :=
  match v with
  | VUndefined => NaN
  | VNull => of_Z 0
  | VBool true => of_Z 1
  | VBool false => of_Z 0
  | VNumber n => n
  | VString s => StringToNumber host s
  | VDate (Some t) => of_Z t
  | VDate None => NaN
  | VArray _ | VObject _ => StringToNumber host (ObjectToString host v)
  end.

(** [v > n] and [v <= n] against a number. *)
Definition gt_number (v : value) (n : number) : bool := num_gt (ToNumber v) n.
Definition le_number (v : value) (n : number) : bool := num_le (ToNumber v) n.

(** [n + v] with a number on the left: concatenation when ToPrimitive of the
    right operand is a string, numeric addition otherwise. *)
Definition number_plus (n : number) (v : value) : value :=
  match v with
  | VString s => VString (NumberToString host n ++ s)
  | VDate _ | VArray _ | VObject _ =>
      VString (NumberToString host n ++ ObjectToString host v)
  | _ => VNumber (num_add n (ToNumber v))
  end.

End Conversions.

(** ** Dates (ECMAScript, Date objects) *)

Module JSDate.

Definition msPerDay : Z := 86400000.

Definition Day (t : Z) : Z := t / msPerDay.
Definition TimeWithinDay (t : Z) : Z := t mod msPerDay.

Definition DayFromYear (y : Z) : Z :=
  365 * (y - 1970) + (y - 1969) / 4 - (y - 1901) / 100 + (y - 1601) / 400.

Definition TimeFromYear (y : Z) : Z := msPerDay * DayFromYear y.

(** The largest year whose first day is not after [t]: an estimate from the
    mean length of a year, corrected by at most one. *)
Definition YearFromTime (t : Z) : Z :=
  let d := Day t in
  let y := 1970 + (d * 400) / 146097 in
  if d <? DayFromYear y then y - 1
  else if DayFromYear (y + 1) <=? d then y + 1
  else y.

Definition DaysInYear (y : Z) : Z := DayFromYear (y + 1) - DayFromYear y.

(** 1 in a leap year, 0 otherwise. *)
Definition LeapDay (y : Z) : Z := DaysInYear y - 365.

Definition InLeapYear (t : Z) : Z := LeapDay (YearFromTime t).

Definition DayWithinYear (t : Z) : Z := Day t - DayFromYear (YearFromTime t).

(** Day within the year on which month [m] (0 to 11) starts. *)
Definition month_start (m leap : Z) : Z :=
  match m with
  | 0 => 0
  | 1 => 31
  | 2 => 59 + leap
  | 3 => 90 + leap
  | 4 => 120 + leap
  | 5 => 151 + leap
  | 6 => 181 + leap
  | 7 => 212 + leap
  | 8 => 243 + leap
  | 9 => 273 + leap
  | 10 => 304 + leap
  | _ => 334 + leap
  end.

Definition month_of_day (d leap : Z) : Z :=
  if d <? 31 then 0
  else if d <? 59 + leap then 1
  else if d <? 90 + leap then 2
  else if d <? 120 + leap then 3
  else if d <? 151 + leap then 4
  else if d <? 181 + leap then 5
  else if d <? 212 + leap then 6
  else if d <? 243 + leap then 7
  else if d <? 273 + leap then 8
  else if d <? 304 + leap then 9
  else if d <? 334 + leap then 10
  else 11.

Definition MonthFromTime (t : Z) : Z := month_of_day (DayWithinYear t) (InLeapYear t).

Definition DateFromTime (t : Z) : Z :=
  DayWithinYear t - month_start (MonthFromTime t) (InLeapYear t) + 1.

(** MakeDay for an integral year and month; the day of the month is a number,
    truncated to an integer.  [None] is NaN. *)
Definition MakeDay (year month : Z) (date : number) : option Z :=
  match date with
  | Fin q =>
      let ym := year + month / 12 in
      let mn := month mod 12 in
      Some (DayFromYear ym + month_start mn (LeapDay ym) + Qtrunc q - 1)
  | _ => None
  end.

Definition MakeDate (day : option Z) (time : Z) : option Z :=
  match day with
  | Some d => Some (d * msPerDay + time)
  | None => None
  end.

Definition TimeClip (time : option Z) : option Z :=
  match time with
  | Some t => if 8640000000000000 <? Z.abs t then None else Some t
  | None => None
  end.

Section Zone.

Variable host : Host.

Definition LocalTime (t : Z) : Z := t + LocalTZA host t true.

Definition UTC (t : option Z) : option Z :=
  match t with
  | Some t => Some (t - LocalTZA host t false)
  | None => None
  end.

(** [d.getDate()] *)
Definition getDate (d : option Z) : number :=
  match d with
  | Some t => of_Z (DateFromTime (LocalTime t))
  | None => NaN
  end.

(** [d.setDate(date)]: the new time value of [d]. *)
Definition setDate (d : option Z) (date : value) : option Z :=
  let dt := ToNumber host date in
  match d with
  | None => None
  | Some tv =>
      let t := LocalTime tv in
      let newDate :=
        MakeDate (MakeDay (YearFromTime t) (MonthFromTime t) dt) (TimeWithinDay t) in
      TimeClip (UTC newDate)
  end.

End Zone.

End JSDate.

(** ** Requests, responses and effects *)

Record Request : Type := {
  ip : value;                      (* [req.ip] *)
  remoteAddress : value;           (* [req.connection.remoteAddress] *)
  headers : list (string * string);
  body : value                     (* [req.body] *)
}.

(** [req.headers[k]] *)
Fixpoint header (hs : list (string * string)) (k : string) : value :=
  match hs with
  | [] => VUndefined
  | (k', v) :: rest => if (k =? k')%string then VString v else header rest k
  end.

(** What [res.status(code).json(payload)] sends; [res.json] alone is status 200. *)
Record Response : Type := {
  status : Z;
  json : value
}.

(** The error body every refusal carries. *)
Definition failure (message : string) : value :=
  VObject [("success", VBool false); ("error", VString message)].

(** [config.publicApi] of [config/config.js].  The secret is a string: a
    configuration with the feature on and no secret, on which [createHmac]
    throws at line 99, is not one of these records. *)
Record PublicApi : Type := {
  enabled : bool;
  allowedIPs : option (list string);
  secret : string
}.

Record Config : Type := {
  publicApi : option PublicApi
}.

(** What the handler does to the outside, in order. *)
Inductive event : Type :=
| logger_info (message : string)
| logger_warn (message : string)
| logger_error (message : string)
| apiKeyService_generateApiKey (options : value)
| webhookService_sendNotification (type : string) (data : value).

Inductive error : Type :=
| TypeError
| Rejection (reason : value).

(** The state of a promise once awaited. *)
Inductive settled : Type :=
| Fulfilled (result : value)
| Rejected (reason : value).

(** The two services the handler delegates to.  Each call settles: a promise
    that stays pending is not one of these outcomes. *)
Record Services : Type := {
  generateApiKey : value -> settled;
  sendNotification : string -> value -> settled
}.

(** The three readings of the system clock one request makes:
    [Date.now()] in the signature check, [new Date()] for the expiry and
    [new Date()] for the notification. *)
Record Clock : Type := {
  t_verify : Z;
  t_expiry : Z;
  t_notify : Z
}.

(** *** The monad of a request: a log of events, and a computation that goes
    on, has sent its response and returned, or has thrown *)

Inductive completion (A : Type) : Type :=
| Normal (a : A)
| Responded (r : Response)
| Threw (e : error).

Arguments Normal {A} a.
Arguments Responded {A} r.
Arguments Threw {A} e.

Definition Js (A : Type) : Type := list event -> completion A * list event.

Definition ret {A} (a : A) : Js A := fun log => (Normal a, log).

Definition bind {A B} (m : Js A) (k : A -> Js B) : Js B :=
  fun log =>
    match m log with
    | (Normal a, log') => k a log'
    | (Responded r, log') => (Responded r, log')
    | (Threw e, log') => (Threw e, log')
    end.

Notation "x <- m ;; k" := (bind m (fun x => k))
  (at level 61, m at next level, right associativity).
Notation "m ;; k" := (bind m (fun _ => k))
  (at level 61, right associativity).

Definition emit (e : event) : Js unit := fun log => (Normal tt, (log ++ [e])%list).

(** [return res.status(code).json(payload)] *)
Definition respond {A} (code : Z) (payload : value) : Js A :=
  fun log => (Responded {| status := code; json := payload |}, log).

Definition throw {A} (e : error) : Js A := fun log => (Threw e, log).

(** [try { m } catch (e) { handler e }] *)
Definition try_catch {A} (m : Js A) (handler : error -> Js A) : Js A :=
  fun log =>
    match m log with
    | (Threw e, log') => handler e log'
    | done => done
    end.

(** [if (c) { m }] *)
Definition when (c : bool) (m : Js unit) : Js unit := if c then m else ret tt.

Definition await (p : settled) : Js value :=
  match p with
  | Fulfilled v => ret v
  | Rejected reason => throw (Rejection reason)
  end.

(** A postcondition on a run: [N] on the value it goes on with, [R] on the
    response it sent; nothing is asked of a run that threw. *)
Definition post {A} (N : A -> Prop) (R : Response -> Prop)
    (run : completion A * list event) : Prop :=
  match fst run with
  | Normal a => N a
  | Responded r => R r
  | Threw _ => True
  end.

(** [v.trim()]: only a string has the method. *)
Definition call_trim (v : value) : Js value :=
  match v with
  | VString s => ret (VString (trim s))
  | _ => throw TypeError
  end.

(** [v.substring(0, 8)] *)
Definition call_substring_0_8 (v : value) : Js string :=
  match v with
  | VString s => ret (substring_to 8 s)
  | _ => throw TypeError
  end.

(** Reading a property of [undefined] or [null] throws. *)
Definition object_coercible (v : value) : Js value :=
  match v with
  | VUndefined | VNull => throw TypeError
  | _ => ret v
  end.

(** [a || b] *)
Definition js_or (a b : value) : value := if truthy a then a else b.

(** [list.includes(v)] on a list of strings. *)
Definition includes (l : list string) (v : value) : bool :=
  match v with
  | VString s => existsb (String.eqb s) l
  | _ => false
  end.

(** [v !== s] for a string [s]. *)
Definition differs_from (v : value) (s : string) : bool :=
  match v with
  | VString s' => negb (s' =? s)%string
  | _ => true
  end.

(** ** The routes file *)

Section Routes.

Variable host : Host.
Variable config : Config.
Variable services : Services.

(** *** [ipWhitelistMiddleware]
    The address [req.ip || req.connection.remoteAddress] is a string or
    [undefined] in Express, so line 62 writes it without a throw. *)
Definition ipWhitelistMiddleware (req : Request) (next : Js unit) : Js unit :=
  let clientIp := js_or (ip req) (remoteAddress req) in
  match publicApi config with
  | Some api =>
      if negb (enabled api) then
        respond 403 (failure "Public API is disabled")
      else
        let allowed := match allowedIPs api with Some l => l | None => [] end in
        if (0 <? Z.of_nat (List.length allowed)) && negb (includes allowed clientIp) then
          emit (logger_warn ("Unauthorized IP access attempt: " ++ ToString host clientIp)) ;;
          respond 403 (failure "IP not allowed")
        else next
  | None => respond 403 (failure "Public API is disabled")
  end.

(** [JSON.stringify(req.body) + timestamp], with a string on the right. *)
Definition signed_payload (req : Request) (timestamp : string) : string :=
  match JSON_stringify host (body req) with
  | Some text => text ++ timestamp
  | None => "undefined" ++ timestamp
  end.

(** The freshness test of line 88. *)
Definition stale (now : Z) (requestTime : number) : bool :=
  num_gt (Math_abs (num_sub (of_Z now) requestTime)) (of_Z 300000).

(** *** [signatureMiddleware] *)
Definition signatureMiddleware (now : Z) (req : Request) (next : Js unit) : Js unit :=
  let signature := header (headers req) "x-signature" in
  let timestamp := header (headers req) "x-timestamp" in
  if negb (truthy signature) || negb (truthy timestamp) then
    respond 401 (failure "Missing signature or timestamp")
  else
    let requestTime := parseInt (ToString host timestamp) in
    if stale now requestTime then
      respond 401 (failure "Request timestamp too old or invalid")
    else
      match publicApi config with
      | None => throw TypeError
      | Some api =>
          let payload := signed_payload req (ToString host timestamp) in
          let expectedSignature := hmac_sha256_hex host (secret api) payload in
          if differs_from signature ("sha256=" ++ expectedSignature) then
            emit (logger_warn "Invalid signature in public API request") ;;
            respond 401 (failure "Invalid signature")
          else next
      end.

(** The test on [name] of line 142. *)
Definition name_rejected (name : value) : bool :=
  negb (truthy name)
  || negb (typeof name =? "string")%string
  || match name with
     | VString s => (String.length (trim s) =? 0)%nat
     | _ => false
     end.

(** The test of lines 149, 156 and 163 on a limit. *)
Definition limit_rejected (limit : value) : bool :=
  truthy limit
  && (negb (typeof limit =? "number")%string || le_number host limit (of_Z 0)).

(** Lines 171-175, where the conversions of the day count do not throw. *)
Definition compute_expiresAt (now : Z) (expirationDays : value) : value :=
  if truthy expirationDays && gt_number host expirationDays (of_Z 0) then
    let expiresAt := Some now in
    VDate (JSDate.setDate host expiresAt
             (number_plus host (JSDate.getDate host expiresAt) expirationDays))
  else VNull.

(** Lines 171-175: the comparison of line 172 converts a truthy day count to
    a primitive, and throws when that conversion does. *)
Definition expiry (now : Z) (expirationDays : value) : Js value :=
  if truthy expirationDays && ToPrimitive_throws expirationDays
  then throw TypeError
  else ret (compute_expiresAt now expirationDays).

(** [`${v}`]: the string of [v], or the TypeError of its conversion. *)
Definition template (v : value) : Js string :=
  if ToPrimitive_throws v then throw TypeError else ret (ToString host v).

(** Lines 249-260: what the notification service is called with. *)
Definition notification_data
    (now : Z) (apiKey keyInfo feishuWebhook : value) (prefix : string) : value :=
  VObject
    [("apiKeyId", get keyInfo "id");
     ("apiKeyName", get keyInfo "name");
     ("apiKey", apiKey);
     ("keyPrefix", VString (prefix ++ "..."));
     ("description", get keyInfo "description");
     ("tokenLimit", get keyInfo "tokenLimit");
     ("dailyCostLimit", get keyInfo "dailyCostLimit");
     ("monthlyCostLimit", get keyInfo "monthlyCostLimit");
     ("expiresAt", get keyInfo "expiresAt");
     ("createdAt", get keyInfo "createdAt");
     ("timestamp", VString (getISOStringWithTimezone host (VDate (Some now))));
     ("customWebhook", feishuWebhook)].

(** *** [sendApiKeyCreatedNotification] *)
Definition sendApiKeyCreatedNotification
    (now : Z) (apiKey keyInfo feishuWebhook : value) : Js unit :=
  try_catch
    (prefix <- call_substring_0_8 apiKey ;;
     let data := notification_data now apiKey keyInfo feishuWebhook prefix in
     emit (webhookService_sendNotification "apiKeyCreated" data) ;;
     await (sendNotification services "apiKeyCreated" data) ;;
     id <- template (get keyInfo "id") ;;
     emit (logger_info ("Sent Feishu notification for API key creation: " ++ id)))
    (fun e =>
       emit (logger_error "Failed to send API key creation notification:") ;;
       throw e).

(** The payload of the 200 response. *)
Definition success_payload (apiKey keyInfo : value) (prefix : string) : value :=
  VObject
    [("success", VBool true);
     ("data", VObject
        [("id", get keyInfo "id");
         ("name", get keyInfo "name");
         ("description", get keyInfo "description");
         ("keyPrefix", VString (prefix ++ "..."));
         ("tokenLimit", get keyInfo "tokenLimit");
         ("dailyCostLimit", get keyInfo "dailyCostLimit");
         ("monthlyCostLimit", get keyInfo "monthlyCostLimit");
         ("expiresAt", get keyInfo "expiresAt");
         ("createdAt", get keyInfo "createdAt");
         ("status", get keyInfo "status")]);
     ("apiKey", apiKey)].

(** The rest of [{ apiKey, ...keyInfo } = apiKeyResult]. *)
Definition rest_without (k : string) (o : value) : value :=
  match o with
  | VObject fields => VObject (without k fields)
  | _ => VObject []
  end.

(** Lines 178-187: what the issuance service is called with. *)
Definition apiKeyOptions
    (name description tokenLimit expiresAt dailyCostLimit monthlyCostLimit : value)
    : value :=
  VObject
    [("name", name);
     ("description", description);
     ("tokenLimit", tokenLimit);
     ("expiresAt", expiresAt);
     ("dailyCostLimit", dailyCostLimit);
     ("monthlyCostLimit", monthlyCostLimit);
     ("createdBy", VString "public-api");
     ("activationMode", VString "immediate")].

(** Lines 191-232: from the result of the issuance service to the response. *)
Definition shape_response
    (clock : Clock) (notifyFeishu feishuWebhook apiKeyResult : value) : Js unit :=
  when (negb (truthy apiKeyResult) || negb (truthy (get apiKeyResult "apiKey")))
    (respond 500 (failure "Failed to generate API key")) ;;
  let apiKey := get apiKeyResult "apiKey" in
  let keyInfo := rest_without "apiKey" apiKeyResult in
  id <- template (get keyInfo "id") ;;
  emit (logger_info ("Public API generated new API key: " ++ id)) ;;
  when (truthy notifyFeishu)
    (try_catch
       (sendApiKeyCreatedNotification (t_notify clock) apiKey keyInfo feishuWebhook)
       (fun notifyError =>
          emit (logger_error "Failed to send Feishu notification for API key creation:"))) ;;
  prefix <- call_substring_0_8 apiKey ;;
  respond 200 (success_payload apiKey keyInfo prefix).

(** The [catch] of the handler, lines 233-239. *)
Definition internal_error (e : error) : Js unit :=
  emit (logger_error "Error in public API generate-key:") ;;
  respond 500 (failure "Internal server error").

(** *** The handler of [POST /api/generate-key] *)
Definition generateKeyHandler (clock : Clock) (req : Request) : Js unit :=
  try_catch
    (params <- object_coercible (body req) ;;
     let name := get params "name" in
     let description := get params "description" in
     let expirationDays := or_default (get params "expirationDays") (VNumber (of_Z 30)) in
     let tokenLimit := get params "tokenLimit" in
     let dailyCostLimit := get params "dailyCostLimit" in
     let monthlyCostLimit := get params "monthlyCostLimit" in
     let notifyFeishu := or_default (get params "notifyFeishu") (VBool true) in
     let feishuWebhook := get params "feishuWebhook" in
     when (name_rejected name)
       (respond 400 (failure "Name is required and must be a non-empty string")) ;;
     when (limit_rejected tokenLimit)
       (respond 400 (failure "Token limit must be a positive number")) ;;
     when (limit_rejected dailyCostLimit)
       (respond 400 (failure "Daily cost limit must be a positive number")) ;;
     when (limit_rejected monthlyCostLimit)
       (respond 400 (failure "Monthly cost limit must be a positive number")) ;;
     expiresAt <- expiry (t_expiry clock) expirationDays ;;
     trimmedName <- call_trim name ;;
     trimmedDescription <-
       match description with
       | VUndefined | VNull => ret VUndefined
       | _ => call_trim description
       end ;;
     let options :=
       apiKeyOptions trimmedName (js_or trimmedDescription (VString ""))
         tokenLimit expiresAt dailyCostLimit monthlyCostLimit in
     emit (apiKeyService_generateApiKey options) ;;
     apiKeyResult <- await (generateApiKey services options) ;;
     shape_response clock notifyFeishu feishuWebhook apiKeyResult)
    internal_error.

(** [router.post('/api/generate-key', ipWhitelistMiddleware,
    signatureMiddleware, handler)] *)
Definition generateKeyRoute (clock : Clock) (req : Request) : Js unit :=
  ipWhitelistMiddleware req
    (signatureMiddleware (t_verify clock) req
       (generateKeyHandler clock req)).

(** One request served from an empty log. *)
Definition serve (clock : Clock) (req : Request) : completion unit * list event :=
  generateKeyRoute clock req [].

End Routes.

(** ** The specification's vocabulary *)

(** The rest of [s] after the prefix [p], when [s] starts with it. *)
Definition strip_prefix (p s : string) : option string :=
  if String.prefix p s
  then Some (String.substring (String.length p) (String.length s - String.length p) s)
  else None.

(** "The header value stripped of a mandatory [sha256=] prefix". *)
Definition strip_sha256_prefix (signatureHeader : string) : option string :=
  strip_prefix "sha256=" signatureHeader.

(** The shared secret of the configuration. *)
Definition shared_secret (config : Config) : string :=
  match publicApi config with
  | Some api => secret api
  | None => ""
  end.

(** "HMAC-SHA256(secret, serialize(body) + timestamp), hex-encoded". *)
Definition expected_signature
    (host : Host) (config : Config) (req : Request) (timestamp : string) : string :=
  hmac_sha256_hex host (shared_secret config) (signed_payload host req timestamp).

(** "A positive number". *)
Definition positive_number (v : value) : bool :=
  match v with
  | VNumber n => num_lt (of_Z 0) n
  | _ => false
  end.

(** A limit given a truthy value that is not a positive number: anything but
    [undefined], [null], [false], [0], [NaN], the empty string and the
    positive numbers. *)
Definition improper_limit (v : value) : bool := truthy v && negb (positive_number v).

(** A property that is there at all. *)
Definition present (v : value) : bool :=
  match v with
  | VUndefined => false
  | _ => true
  end.

Definition nullish (v : value) : bool :=
  match v with
  | VUndefined | VNull => true
  | _ => false
  end.

(** The feature flag, as line 53 reads it. *)
Definition feature_enabled (config : Config) : bool :=
  match publicApi config with
  | Some api => enabled api
  | None => false
  end.

(** The allow-list, as line 60 reads it. *)
Definition allow_list (config : Config) : list string :=
  match publicApi config with
  | Some api => match allowedIPs api with Some l => l | None => [] end
  | None => []
  end.

(** The request passes the IP gate. *)
Definition gate_open (config : Config) (req : Request) : bool :=
  feature_enabled config
  && ((List.length (allow_list config) =? 0)%nat
      || includes (allow_list config) (js_or (ip req) (remoteAddress req))).

(** The 401 of a signature that does not match. *)
Definition invalid_signature : Response :=
  {| status := 401; json := failure "Invalid signature" |}.

(** The four checks of lines 142-168 all pass. *)
Definition validated (host : Host) (params : value) : bool :=
  negb (name_rejected (get params "name"))
  && negb (limit_rejected host (get params "tokenLimit"))
  && negb (limit_rejected host (get params "dailyCostLimit"))
  && negb (limit_rejected host (get params "monthlyCostLimit")).

(** The value of [description?.trim() || ''] where it does not throw, which
    is on [undefined], [null] and strings. *)
Definition trimmed_description (description : value) : value :=
  match description with
  | VString s => js_or (VString (trim s)) (VString "")
  | _ => VString ""
  end.

Definition trimmable (description : value) : bool :=
  match description with
  | VUndefined | VNull | VString _ => true
  | _ => false
  end.

(** The value of [name.trim()] on a string. *)
Definition trimmed_name (name : value) : value :=
  match name with
  | VString s => VString (trim s)
  | _ => name
  end.

(** The options the handler builds from the body of a request. *)
Definition issued_options (host : Host) (clock : Clock) (params : value) : value :=
  apiKeyOptions
    (trimmed_name (get params "name"))
    (trimmed_description (get params "description"))
    (get params "tokenLimit")
    (compute_expiresAt host (t_expiry clock)
       (or_default (get params "expirationDays") (VNumber (of_Z 30))))
    (get params "dailyCostLimit")
    (get params "monthlyCostLimit").

(** The request passes the gate and the verifier. *)
Definition authenticated
    (host : Host) (config : Config) (clock : Clock) (req : Request) : bool :=
  let signature := header (headers req) "x-signature" in
  let timestamp := header (headers req) "x-timestamp" in
  gate_open config req
  && truthy signature
  && truthy timestamp
  && negb (stale (t_verify clock) (parseInt (ToString host timestamp)))
  && negb (differs_from signature
             ("sha256=" ++ expected_signature host config req (ToString host timestamp))).

(** The day count of a body, with its default. *)
Definition days_of (params : value) : value :=
  or_default (get params "expirationDays") (VNumber (of_Z 30)).

(** Line 172 throws on the body. *)
Definition days_throw (params : value) : bool :=
  truthy (days_of params) && ToPrimitive_throws (days_of params).

(** The day count is as the data model has it: absent, or an integer. *)
Definition days_as_specified (params : value) : Prop :=
  get params "expirationDays" = VUndefined
  \/ exists n : Z, get params "expirationDays" = VNumber (of_Z n).

(** The body passes the checks and its description can be trimmed. *)
Definition well_formed (host : Host) (params : value) : bool :=
  negb (nullish params) && validated host params
  && trimmable (get params "description").

(** The message of the first check of lines 142-168 that fails, in the order
    name, token limit, daily cost limit, monthly cost limit. *)
Definition first_failure (host : Host) (params : value) : option string :=
  if name_rejected (get params "name")
  then Some "Name is required and must be a non-empty string"
  else if limit_rejected host (get params "tokenLimit")
  then Some "Token limit must be a positive number"
  else if limit_rejected host (get params "dailyCostLimit")
  then Some "Daily cost limit must be a positive number"
  else if limit_rejected host (get params "monthlyCostLimit")
  then Some "Monthly cost limit must be a positive number"
  else None.

(** The response of a run, if it sent one. *)
Definition response_of (run : completion unit * list event) : option Response :=
  match fst run with
  | Responded r => Some r
  | _ => None
  end.

(** The payload a run answered with. *)
Definition answer (run : completion unit * list event) : value :=
  match response_of run with
  | Some r => json r
  | None => VUndefined
  end.

(** What the notification step adds to the log for a key [k]: nothing when
    [notifyFeishu] is falsy, else the call and what follows from its outcome. *)
Definition notification_log
    (host : Host) (services : Services) (clock : Clock)
    (notifyFeishu feishuWebhook keyInfo : value) (k : string) : list event :=
  if truthy notifyFeishu then
    let data :=
      notification_data host (t_notify clock) (VString k) keyInfo feishuWebhook
        (substring_to 8 k) in
    webhookService_sendNotification "apiKeyCreated" data
    :: match sendNotification services "apiKeyCreated" data with
       | Fulfilled _ =>
           [logger_info ("Sent Feishu notification for API key creation: "
                         ++ ToString host (get keyInfo "id"))]
       | Rejected _ =>
           [logger_error "Failed to send API key creation notification:";
            logger_error "Failed to send Feishu notification for API key creation:"]
       end
  else [].

(** The events of a log that are calls of the issuance service. *)
Definition issuance_calls (log : list event) : list event :=
  filter (fun e => match e with apiKeyService_generateApiKey _ => true | _ => false end) log.

(** ** Fixtures: a host, a configuration and services to run the model on *)

Module Fixture.

Definition show_Z (z : Z) : string := NilZero.string_of_int (Z.to_int z).

Definition show_number (n : number) : string :=
  match n with
  | NaN => "NaN"
  | Inf true => "-Infinity"
  | Inf false => "Infinity"
  | Fin q => if (Zpos (Qden q) =? 1) then show_Z (Qnum q)
             else show_Z (Qnum q) ++ "/" ++ show_Z (Zpos (Qden q))
  end.

(** A keyed tag in place of the hash: distinct inputs give distinct tags. *)
Definition tag (key data : string) : string := "<" ++ key ++ "|" ++ data ++ ">".

(** The double quote. *)
Definition quote : string := String (Ascii.ascii_of_nat 34) EmptyString.

Fixpoint show_json (v : value) : string :=
  match v with
  | VUndefined | VNull => "null"
  | VBool true => "true"
  | VBool false => "false"
  | VNumber n => show_number n
  | VString s => quote ++ s ++ quote
  | VDate _ => quote ++ "date" ++ quote
  | VArray items => "[" ++ String.concat "," (map show_json items) ++ "]"
  | VObject fields =>
      "{" ++ String.concat ","
               (map (fun kv => quote ++ fst kv ++ quote ++ ":" ++ show_json (snd kv)) fields)
          ++ "}"
  end.

Definition host : Host := {|
  hmac_sha256_hex := tag;
  JSON_stringify := fun v => match v with VUndefined => None | _ => Some (show_json v) end;
  StringToNumber := parseInt;
  NumberToString := show_number;
  ObjectToString := fun _ => "[object Object]";
  LocalTZA := fun _ _ => 0;
  getISOStringWithTimezone := fun _ => "2026-01-01T00:00:00+00:00"
|}.

Definition open_config : Config :=
  {| publicApi := Some {| enabled := true; allowedIPs := Some [];
                         secret := "test-secret-key-for-public-api" |} |}.

Definition closed_config : Config :=
  {| publicApi := Some {| enabled := false; allowedIPs := Some [];
                         secret := "test-secret-key-for-public-api" |} |}.

Definition listed_config : Config :=
  {| publicApi := Some {| enabled := true; allowedIPs := Some ["10.0.0.1"; "10.0.0.2"];
                         secret := "test-secret-key-for-public-api" |} |}.

(** An issuance service that stores what it is given. *)
Definition issue (options : value) : settled :=
  Fulfilled (VObject
    [("id", VString "key-1");
     ("apiKey", VString "cr_0123456789abcdef");
     ("name", get options "name");
     ("description", get options "description");
     ("tokenLimit", get options "tokenLimit");
     ("dailyCostLimit", get options "dailyCostLimit");
     ("monthlyCostLimit", get options "monthlyCostLimit");
     ("expiresAt", get options "expiresAt");
     ("createdAt", VString "2026-01-01T00:00:00.000Z");
     ("status", VString "active")]).


Definition services : Services :=
  {| generateApiKey := issue;
     sendNotification := fun _ _ => Fulfilled VUndefined |}.

Definition services_webhook_down : Services :=
  {| generateApiKey := issue;
     sendNotification := fun _ _ => Rejected (VString "ECONNREFUSED") |}.


(** 2026-01-01T12:00:00Z *)
Definition noon : Z := 1767268800000.

Definition clock : Clock := {| t_verify := noon; t_expiry := noon + 5; t_notify := noon + 9 |}.

(** A request signed the way [test-public-api.js] signs. *)
Definition signed (source : string) (timestamp : string) (payload : value) : Request :=
  {| ip := VString source;
     remoteAddress := VString source;
     headers :=
       [("content-type", "application/json");
        ("x-signature",
         "sha256=" ++ tag "test-secret-key-for-public-api" (show_json payload ++ timestamp));
        ("x-timestamp", timestamp)];
     body := payload |}.

Definition with_signature (sig : string) (timestamp : string) (payload : value) : Request :=
  {| ip := VString "10.0.0.1";
     remoteAddress := VString "10.0.0.1";
     headers := [("x-signature", sig); ("x-timestamp", timestamp)];
     body := payload |}.

Definition num (z : Z) : value := VNumber (of_Z z).

(** The payload of [testPublicApiGenerateKey]. *)
Definition test_payload : value :=
  VObject
    [("name", VString "Test API Key");
     ("description", VString "Generated via Public API for testing");
     ("expirationDays", num 30);
     ("tokenLimit", num 50000);
     ("dailyCostLimit", num 10);
     ("monthlyCostLimit", num 100);
     ("notifyFeishu", VBool false)].

(** The payload of [testWithFeishuNotification]. *)
Definition feishu_payload : value :=
  VObject
    [("name", VString "Test API Key with Feishu");
     ("description", VString "Testing Feishu notification functionality");
     ("expirationDays", num 7);
     ("tokenLimit", num 10000);
     ("dailyCostLimit", num 5);
     ("monthlyCostLimit", num 50);
     ("notifyFeishu", VBool true);
     ("feishuWebhook", VString "https://open.feishu.cn/open-apis/bot/v2/hook/test-webhook-url")].

(** A name with a limit set to zero. *)
Definition zero_limit_payload : value :=
  VObject [("name", VString "Test"); ("tokenLimit", num 0)].

(** Three things wrong at once, the name among them. *)
Definition all_wrong_payload : value :=
  VObject [("name", VString "   "); ("tokenLimit", num (-1));
           ("dailyCostLimit", VString "a lot"); ("monthlyCostLimit", num (-5))].

(** The scenario of the specification: [{name: "X", dailyCostLimit: -5}]. *)
Definition negative_daily_payload : value :=
  VObject [("name", VString "X"); ("dailyCostLimit", num (-5))].


(** An expiry a hundred thousand million days ahead. *)
Definition far_future_payload : value :=
  VObject [("name", VString "Far"); ("expirationDays", num 100000000000);
           ("notifyFeishu", VBool false)].

(** A request of [source] at [noon], signed. *)
Definition request (payload : value) : Request := signed "10.0.0.1" "1767268800000" payload.

End Fixture.

(** ** [test-public-api.js]: the client side of the signature *)

(** [n.toString()] on an integer below 1e21 in magnitude
    ([Date.now().toString()] in the tests, which is within 8.64e15): its
    decimal digits, after a minus sign below zero.  From 1e21 on the language
    writes an exponent, which this does not. *)
Definition integer_toString (z : Z) : string := NilEmpty.string_of_int (Z.to_int z).

(** [generateSignature(payload, timestamp, secret)], with a string for
    [timestamp]. *)
Definition generateSignature
    (host : Host) (payload : value) (timestamp secret : string) : string :=
  let data :=
    match JSON_stringify host payload with
    | Some text => text ++ timestamp
    | None => "undefined" ++ timestamp
    end in
  "sha256=" ++ hmac_sha256_hex host secret data.

(** ** More vocabulary: decisions and calls *)

(** The verifier lets the request through: both headers are there and not
    empty, the timestamp is not stale and the signature is the expected one. *)
Definition verifier_accepts
    (host : Host) (config : Config) (now : Z) (req : Request) : bool :=
  let signature := header (headers req) "x-signature" in
  let timestamp := header (headers req) "x-timestamp" in
  truthy signature
  && truthy timestamp
  && negb (stale now (parseInt (ToString host timestamp)))
  && negb (differs_from signature
             ("sha256=" ++ expected_signature host config req (ToString host timestamp))).

(** The events of a log that are calls of the notification service. *)
Definition notification_calls (log : list event) : list event :=
  filter (fun e => match e with webhookService_sendNotification _ _ => true | _ => false end)
         log.

(** The 500 of the handler's [catch]. *)
Definition internal_server_error : Response :=
  {| status := 500; json := failure "Internal server error" |}.

(** The response of the handler as a table: read from the body and from what
    the issuance service settles to. *)
Definition handler_response
    (host : Host) (generate : value -> settled) (clock : Clock) (req : Request)
    : Response :=
  if nullish (body req) then internal_server_error
  else
    match first_failure host (body req) with
    | Some message => {| status := 400; json := failure message |}
    | None =>
        if days_throw (body req) then internal_server_error
        else if negb (trimmable (get (body req) "description")) then internal_server_error
        else
          match generate (issued_options host clock (body req)) with
          | Rejected _ => internal_server_error
          | Fulfilled result =>
              match get result "apiKey" with
              | VString k =>
                  if (k =? "")%string
                  then {| status := 500; json := failure "Failed to generate API key" |}
                  else if ToPrimitive_throws (get result "id") then internal_server_error
                  else {| status := 200;
                          json := success_payload (VString k) (rest_without "apiKey" result)
                                    (substring_to 8 k) |}
              | key =>
                  if truthy result && truthy key then internal_server_error
                  else {| status := 500; json := failure "Failed to generate API key" |}
              end
          end
    end.

(** The body reaches the call of the issuance service: it passes the checks,
    its day count converts and its description can be trimmed. *)
Definition reaches_issuance (host : Host) (params : value) : bool :=
  well_formed host params && negb (days_throw params).

(** The calls of the notification service a request leads to, as a table:
    one call when the body reaches the issuance service, that service yields
    a key that is a string with an id that converts to a string, and
    [notifyFeishu] is truthy; none otherwise. *)
Definition expected_notifications
    (host : Host) (services : Services) (clock : Clock) (req : Request) : list event :=
  if reaches_issuance host (body req) then
    match generateApiKey services (issued_options host clock (body req)) with
    | Fulfilled result =>
        match get result "apiKey" with
        | VString k =>
            if negb (k =? "")%string
               && negb (ToPrimitive_throws (get result "id"))
               && truthy (or_default (get (body req) "notifyFeishu") (VBool true))
            then [webhookService_sendNotification "apiKeyCreated"
                    (notification_data host (t_notify clock) (VString k)
                       (rest_without "apiKey" result) (get (body req) "feishuWebhook")
                       (substring_to 8 k))]
            else []
        | _ => []
        end
    | Rejected _ => []
    end
  else [].

(** What the handler adds to the log, as a table. *)
Definition handler_trace
    (host : Host) (services : Services) (clock : Clock) (req : Request) : list event :=
  let caught := logger_error "Error in public API generate-key:" in
  if nullish (body req) then [caught]
  else
    match first_failure host (body req) with
    | Some _ => []
    | None =>
        if days_throw (body req) then [caught]
        else if negb (trimmable (get (body req) "description")) then [caught]
        else
          let options := issued_options host clock (body req) in
          apiKeyService_generateApiKey options
          :: match generateApiKey services options with
             | Rejected _ => [caught]
             | Fulfilled result =>
                 if negb (truthy result && truthy (get result "apiKey")) then []
                 else if ToPrimitive_throws (get result "id") then [caught]
                 else
                   let keyInfo := rest_without "apiKey" result in
                   let notifyFeishu :=
                     or_default (get (body req) "notifyFeishu") (VBool true) in
                   logger_info ("Public API generated new API key: "
                                ++ ToString host (get keyInfo "id"))
                   :: match get result "apiKey" with
                      | VString k =>
                          notification_log host services clock notifyFeishu
                            (get (body req) "feishuWebhook") keyInfo k
                      | _ =>
                          (if truthy notifyFeishu
                           then [logger_error "Failed to send API key creation notification:";
                                 logger_error
                                   "Failed to send Feishu notification for API key creation:"]
                           else [])
                          ++ [caught]
                      end
             end
    end.

(** ** More fixtures *)

Module Scenario.

(** An issuance service that is down. *)
Definition services_issuance_down : Services :=
  {| generateApiKey := fun _ => Rejected (VString "redis unavailable");
     sendNotification := fun _ _ => Fulfilled VUndefined |}.

(** An issuance service that returns no key. *)
Definition services_no_key : Services :=
  {| generateApiKey := fun _ => Fulfilled (VObject [("id", VString "key-1")]);
     sendNotification := fun _ _ => Fulfilled VUndefined |}.

(** An issuance service whose key is three characters long. *)
Definition services_short_key : Services :=
  {| generateApiKey := fun _ =>
       Fulfilled (VObject [("id", VString "key-1"); ("apiKey", VString "abc")]);
     sendNotification := fun _ _ => Fulfilled VUndefined |}.

(** An issuance service whose key is eight characters and three dots. *)
Definition services_dotted_key : Services :=
  {| generateApiKey := fun _ =>
       Fulfilled (VObject [("id", VString "key-1"); ("apiKey", VString "abcdefgh...")]);
     sendNotification := fun _ _ => Fulfilled VUndefined |}.

(** A day count that cannot be converted to a number: the comparison of
    line 172 throws on it. *)
Definition unconvertible_days_payload : value :=
  VObject [("name", VString "x");
           ("expirationDays", VObject [("toString", Fixture.num 1)])].

(** A day count below zero. *)
Definition negative_days_payload : value :=
  VObject [("name", VString "Past"); ("expirationDays", Fixture.num (-5))].

(** A description that is a number. *)
Definition numeric_description_payload : value :=
  VObject [("name", VString "Numbered"); ("description", Fixture.num 5)].


(** A request that carries no headers. *)
Definition bare_request : Request :=
  {| ip := VString "10.0.0.1"; remoteAddress := VString "10.0.0.1";
     headers := []; body := Fixture.test_payload |}.

(** A request behind a proxy setup where [req.ip] is not set. *)
Definition socket_only_request : Request :=
  {| ip := VUndefined; remoteAddress := VString "10.0.0.2";
     headers := headers (Fixture.request Fixture.test_payload);
     body := Fixture.test_payload |}.

(** A request as [test-public-api.js] sends it at time [t], as the server
    receives it: header names in lower case, the payload as body. *)
Definition client_request
    (source : string) (t : Z) (payload : value) (secret : string) : Request :=
  {| ip := VString source;
     remoteAddress := VString source;
     headers :=
       [("content-type", "application/json");
        ("x-signature",
         generateSignature Fixture.host payload (integer_toString t) secret);
        ("x-timestamp", integer_toString t)];
     body := payload |}.

(** A signed request with no body at all. *)
Definition bodyless_request : Request :=
  client_request "10.0.0.1" Fixture.noon VUndefined "test-secret-key-for-public-api".

End Scenario.

(** * Properties *)

(** ** Sample runs *)

Example parseInt_decimal : parseInt "1700000000000" = of_Z 1700000000000.
Proof. reflexivity. Qed.

Example parseInt_garbage : parseInt "yesterday" = NaN.
Proof. reflexivity. Qed.

Example parseInt_prefix : parseInt "  -42ms" = of_Z (-42).
Proof. reflexivity. Qed.

Example parseInt_hex : parseInt "0x1F" = of_Z 31.
Proof. reflexivity. Qed.

Example parseInt_bare_hex : parseInt "0x" = NaN.
Proof. reflexivity. Qed.

Example trim_both : trim "  my key  " = "my key".
Proof. reflexivity. Qed.

Example leap_day_2000 :
  JSDate.YearFromTime 951782400000 = 2000
  /\ JSDate.MonthFromTime 951782400000 = 1
  /\ JSDate.DateFromTime 951782400000 = 29.
Proof. repeat split; reflexivity. Qed.

Example before_the_epoch :
  JSDate.YearFromTime (-1) = 1969 /\ JSDate.DateFromTime (-1) = 31.
Proof. split; reflexivity. Qed.

(** Breaks the hypotheses that a conjunction of checks holds into one
    hypothesis per check. *)
Ltac split_checks :=
  repeat match goal with
         | H : _ && _ = true |- _ => apply andb_true_iff in H as [? ?]
         | H : negb _ = true |- _ => apply negb_true_iff in H
         end.

(** ** The monad *)

Lemma bind_ret {A B} (a : A) (k : A -> Js B) log : bind (ret a) k log = k a log.
Proof. reflexivity. Qed.

Lemma bind_emit {B} (e : event) (k : unit -> Js B) log :
  bind (emit e) k log = k tt (log ++ [e])%list.
Proof. reflexivity. Qed.

Lemma bind_respond {A B} code payload (k : A -> Js B) log :
  bind (respond code payload) k log
  = (Responded {| status := code; json := payload |}, log).
Proof. reflexivity. Qed.

Lemma bind_throw {A B} e (k : A -> Js B) log : bind (throw e) k log = (Threw e, log).
Proof. reflexivity. Qed.

Lemma post_bind {A B} (m : Js A) (k : A -> Js B)
    (N : A -> Prop) (N' : B -> Prop) (R : Response -> Prop) (log : list event) :
  post N R (m log) ->
  (forall a log', N a -> post N' R (k a log')) ->
  post N' R (bind m k log).
Proof.
  intros Hm Hk. unfold bind. unfold post in Hm.
  destruct (m log) as [[a|r|e] log']; cbn [fst] in Hm.
  - apply Hk, Hm.
  - exact Hm.
  - exact I.
Qed.

(** A body that can only answer with [R] or throw, under the handler's
    [catch], answers with [R] or with the 500 of the [catch]. *)
Lemma try_catch_internal_error (m : Js unit) (R : Response -> Prop) :
  (forall r, status r = 500 -> R r) ->
  (forall log, post (fun _ => False) R (m log)) ->
  forall log, exists r log',
    try_catch m internal_error log = (Responded r, log') /\ R r.
Proof.
  intros H500 Hm log. specialize (Hm log). unfold post in Hm. unfold try_catch.
  destruct (m log) as [[a|r|e] log']; cbn in Hm.
  - contradiction.
  - eauto.
  - do 2 eexists. split; [reflexivity | now apply H500].
Qed.

(** ** Strings and numbers *)

Lemma substring_whole (s : string) : String.substring 0 (String.length s) s = s.
Proof. induction s as [|c s IH]; simpl; [reflexivity | now rewrite IH]. Qed.

Lemma strip_prefix_spec (p s r : string) :
  strip_prefix p s = Some r <-> s = (p ++ r)%string.
Proof.
  unfold strip_prefix. revert s.
  induction p as [|a p IH]; intros s.
  - simpl. rewrite Nat.sub_0_r, substring_whole.
    destruct s; simpl; split; intros H; congruence.
  - destruct s as [|b s]; simpl.
    + split; intros H; discriminate.
    + destruct (Ascii.ascii_dec a b) as [->|Hab].
      * rewrite IH. split; intros H; congruence.
      * split; intros H; [discriminate | congruence].
Qed.

Lemma differs_from_sha256 (sig expected : string) :
  differs_from (VString sig) ("sha256=" ++ expected) = false
  <-> strip_sha256_prefix sig = Some expected.
Proof.
  unfold strip_sha256_prefix. rewrite strip_prefix_spec.
  unfold differs_from. rewrite negb_false_iff. apply String.eqb_eq.
Qed.

Lemma stale_of_Z (now t : Z) :
  stale now (of_Z t) = (300000 <? Z.abs (now - t)).
Proof.
  unfold stale, num_gt, Math_abs, num_sub, num_add, num_neg, of_Z, num_lt.
  unfold Qlt_bool, Qle_bool, Qabs, Qplus, Qopp, inject_Z; simpl.
  rewrite Z.ltb_antisym. f_equal. f_equal; lia.
Qed.

Lemma stale_NaN (now : Z) : stale now NaN = false.
Proof. reflexivity. Qed.

Lemma includes_In (l : list string) (v : value) :
  includes l v = true <-> exists s, v = VString s /\ In s l.
Proof.
  destruct v; simpl; try (split; [discriminate | intros (s0 & H & _); discriminate]).
  rewrite existsb_exists. split.
  - intros (x & Hin & Heq). apply String.eqb_eq in Heq. subst. eauto.
  - intros (s0 & H & Hin). injection H as <-. exists s. split; [exact Hin | apply String.eqb_refl].
Qed.

Lemma lookup_without (k f : string) (fields : list (string * value)) :
  lookup f (without k fields) = if (f =? k)%string then VUndefined else lookup f fields.
Proof.
  induction fields as [|[k' v] rest IH]; cbn [without filter lookup fst].
  - now destruct (f =? k)%string.
  - fold (without k rest).
    destruct (k' =? k)%string eqn:Ek'; cbn [negb lookup].
    + rewrite IH. apply String.eqb_eq in Ek'. subst k'.
      now destruct (f =? k)%string.
    + rewrite IH. destruct (f =? k')%string eqn:Ef; [|reflexivity].
      apply String.eqb_eq in Ef. subst k'. now rewrite Ek'.
Qed.

Lemma get_rest_without (k f : string) (o : value) :
  get (rest_without k o) f = if (f =? k)%string then VUndefined else get o f.
Proof.
  destruct o; cbn [rest_without get lookup]; try now destruct (f =? k)%string.
  apply lookup_without.
Qed.

(** ** The IP gate *)

Section Gate.

Variable host : Host.
Variable config : Config.

Lemma gate_closed (req : Request) (next : Js unit) (log : list event) :
  feature_enabled config = false ->
  ipWhitelistMiddleware host config req next log
  = (Responded {| status := 403; json := failure "Public API is disabled" |}, log).
Proof.
  unfold feature_enabled, ipWhitelistMiddleware.
  destruct (publicApi config) as [api|]; [|reflexivity].
  intros ->. reflexivity.
Qed.

Lemma gate_passes (req : Request) (next : Js unit) (log : list event) :
  gate_open config req = true ->
  ipWhitelistMiddleware host config req next log = next log.
Proof.
  unfold gate_open, feature_enabled, allow_list, ipWhitelistMiddleware.
  destruct (publicApi config) as [api|]; [|discriminate].
  intros H. apply andb_true_iff in H as [-> H]. simpl.
  destruct (allowedIPs api) as [l|]; [|reflexivity].
  apply orb_true_iff in H as [H | ->].
  - apply Nat.eqb_eq in H. destruct l; [reflexivity | discriminate].
  - now rewrite andb_false_r.
Qed.

Lemma gate_refuses (req : Request) (next : Js unit) (log : list event) :
  feature_enabled config = true ->
  allow_list config <> [] ->
  includes (allow_list config) (js_or (ip req) (remoteAddress req)) = false ->
  ipWhitelistMiddleware host config req next log
  = (Responded {| status := 403; json := failure "IP not allowed" |},
     (log ++ [logger_warn ("Unauthorized IP access attempt: "
                           ++ ToString host (js_or (ip req) (remoteAddress req)))])%list).
Proof.
  unfold feature_enabled, allow_list, ipWhitelistMiddleware.
  destruct (publicApi config) as [api|]; [|discriminate].
  intros -> Hne Hout. simpl.
  destruct (allowedIPs api) as [l|]; [|contradiction].
  rewrite Hout. destruct l; [contradiction | reflexivity].
Qed.

End Gate.

(** ** The signature verifier *)

Section Verifier.

Variable host : Host.
Variable config : Config.

(** Lines 96-109: what the verifier does once both headers are there and the
    timestamp has passed the freshness test. *)
Lemma verifier_compares (now : Z) (req : Request) (sig ts : string)
    (next : Js unit) (log : list event) :
  header (headers req) "x-signature" = VString sig -> sig <> "" ->
  header (headers req) "x-timestamp" = VString ts -> ts <> "" ->
  stale now (parseInt ts) = false ->
  feature_enabled config = true ->
  signatureMiddleware host config now req next log
  = if differs_from (VString sig) ("sha256=" ++ expected_signature host config req ts)
    then (Responded invalid_signature,
          (log ++ [logger_warn "Invalid signature in public API request"])%list)
    else next log.
Proof.
  intros Hsig Hs Hts Ht Hfresh Hon.
  unfold signatureMiddleware, expected_signature, shared_secret.
  rewrite Hsig, Hts. cbn [truthy ToString].
  apply String.eqb_neq in Hs, Ht. rewrite Hs, Ht. cbn [negb orb].
  rewrite Hfresh.
  unfold feature_enabled in Hon.
  destruct (publicApi config) as [api|]; [|discriminate].
  destruct (differs_from _ _); reflexivity.
Qed.

(** Lines 86-94: a stale timestamp is answered before the secret is read. *)
Lemma verifier_stale (now : Z) (req : Request) (sig ts : string)
    (next : Js unit) (log : list event) :
  header (headers req) "x-signature" = VString sig -> sig <> "" ->
  header (headers req) "x-timestamp" = VString ts -> ts <> "" ->
  stale now (parseInt ts) = true ->
  signatureMiddleware host config now req next log
  = (Responded {| status := 401; json := failure "Request timestamp too old or invalid" |},
     log).
Proof.
  intros Hsig Hs Hts Ht Hstale.
  unfold signatureMiddleware.
  rewrite Hsig, Hts. cbn [truthy ToString].
  apply String.eqb_neq in Hs, Ht. rewrite Hs, Ht. cbn [negb orb].
  now rewrite Hstale.
Qed.

(** Whatever the signature header, a stale timestamp gets a 401. *)
Lemma verifier_stale_any_signature (now : Z) (req : Request) (ts : string)
    (next : Js unit) (log : list event) :
  header (headers req) "x-timestamp" = VString ts ->
  stale now (parseInt ts) = true ->
  exists message,
    signatureMiddleware host config now req next log
    = (Responded {| status := 401; json := failure message |}, log).
Proof.
  intros Hts Hstale.
  unfold signatureMiddleware. rewrite Hts. cbn [ToString].
  destruct (negb (truthy (header (headers req) "x-signature")) || negb (truthy (VString ts))).
  - eexists. reflexivity.
  - rewrite Hstale. eexists. reflexivity.
Qed.

End Verifier.

(** ** Claims on the gate and the verifier *)

(** C6. While the feature flag is off, every request to the route is answered
    403 "Public API is disabled", whatever its source address, headers and
    body: the gate answers without running what follows it (the answer does
    not depend on [next], and nothing is logged or called). *)
Theorem disabled_feature_is_refused
    (host : Host) (config : Config) (services : Services)
    (clock : Clock) (req : Request) :
  feature_enabled config = false ->
  serve host config services clock req
  = (Responded {| status := 403; json := failure "Public API is disabled" |}, [])
  /\ forall next log,
       ipWhitelistMiddleware host config req next log
       = (Responded {| status := 403; json := failure "Public API is disabled" |}, log).
Proof.
  intros Hoff. split.
  - unfold serve, generateKeyRoute. now apply gate_closed.
  - intros next log. now apply gate_closed.
Qed.

Lemma disabled_feature_is_refused_witness :
  feature_enabled Fixture.closed_config = false
  /\ serve Fixture.host Fixture.closed_config Fixture.services Fixture.clock
       (Fixture.signed "10.0.0.1" "1767268800000" Fixture.test_payload)
     = (Responded {| status := 403; json := failure "Public API is disabled" |}, []).
Proof.
  split; [reflexivity|].
  apply (disabled_feature_is_refused Fixture.host Fixture.closed_config Fixture.services
           Fixture.clock (Fixture.signed "10.0.0.1" "1767268800000" Fixture.test_payload)).
  reflexivity.
Defined.

(** C7. With the feature on: a request whose source address is not in a
    non-empty allow-list is answered 403 "IP not allowed", and the refusal is
    logged with that address; with an empty or unset allow-list every source
    address passes the gate, which hands over to the next middleware. *)
Theorem ip_gate_filters
    (host : Host) (config : Config) (services : Services)
    (clock : Clock) (req : Request) :
  feature_enabled config = true ->
  let clientIp := js_or (ip req) (remoteAddress req) in
  (allow_list config <> [] ->
   (forall s, clientIp = VString s -> ~ In s (allow_list config)) ->
   serve host config services clock req
   = (Responded {| status := 403; json := failure "IP not allowed" |},
      [logger_warn ("Unauthorized IP access attempt: " ++ ToString host clientIp)])
   /\ forall next log,
        ipWhitelistMiddleware host config req next log
        = (Responded {| status := 403; json := failure "IP not allowed" |},
           (log ++ [logger_warn ("Unauthorized IP access attempt: "
                                 ++ ToString host clientIp)])%list))
  /\ (allow_list config = [] ->
      forall next log, ipWhitelistMiddleware host config req next log = next log).
Proof.
  intros Hon clientIp. split.
  - intros Hne Habsent.
    assert (Hout : includes (allow_list config) clientIp = false).
    { destruct (includes (allow_list config) clientIp) eqn:E; [|reflexivity].
      apply includes_In in E as (s & Hs & Hin). now destruct (Habsent s Hs). }
    split.
    + unfold serve, generateKeyRoute. now rewrite gate_refuses.
    + intros next log. now apply gate_refuses.
  - intros Hempty next log. apply gate_passes.
    unfold gate_open. now rewrite Hon, Hempty.
Qed.

Lemma ip_gate_filters_witness :
  serve Fixture.host Fixture.listed_config Fixture.services Fixture.clock
    (Fixture.signed "192.168.7.7" "1767268800000" Fixture.test_payload)
  = (Responded {| status := 403; json := failure "IP not allowed" |},
     [logger_warn "Unauthorized IP access attempt: 192.168.7.7"])
  /\ ipWhitelistMiddleware Fixture.host Fixture.open_config
       (Fixture.signed "192.168.7.7" "1767268800000" Fixture.test_payload) (ret tt) []
     = (Normal tt, []).
Proof.
  split.
  - apply (ip_gate_filters Fixture.host Fixture.listed_config Fixture.services Fixture.clock
             (Fixture.signed "192.168.7.7" "1767268800000" Fixture.test_payload)).
    + reflexivity.
    + discriminate.
    + intros s Hs. injection Hs as <-. simpl. intros [H | [H | []]]; discriminate.
  - apply (ip_gate_filters Fixture.host Fixture.open_config Fixture.services Fixture.clock
             (Fixture.signed "192.168.7.7" "1767268800000" Fixture.test_payload)
             eq_refl).
    reflexivity.
Defined.

(** C1. For a request that passed the IP gate and carries both headers with a
    timestamp [ts] that passed the freshness test, and whose body serializes
    to [text]: the digest compared is the hex HMAC-SHA256 of [text ++ ts], the
    serialized body followed by the timestamp, under the shared secret.  When
    it is not what remains of the signature header after its mandatory
    [sha256=] prefix, the answer is 401 "Invalid signature", the mismatch is
    logged and the issuance service is not called; when it is, the verifier
    hands over to the next handler. *)
Theorem signature_is_checked
    (host : Host) (config : Config) (services : Services)
    (clock : Clock) (req : Request) (api : PublicApi) (sig ts text : string) :
  gate_open config req = true ->
  publicApi config = Some api ->
  header (headers req) "x-signature" = VString sig -> sig <> "" ->
  header (headers req) "x-timestamp" = VString ts -> ts <> "" ->
  stale (t_verify clock) (parseInt ts) = false ->
  JSON_stringify host (body req) = Some text ->
  let digest := hmac_sha256_hex host (secret api) (text ++ ts) in
  (strip_sha256_prefix sig <> Some digest ->
   serve host config services clock req
   = (Responded invalid_signature, [logger_warn "Invalid signature in public API request"])
   /\ issuance_calls (snd (serve host config services clock req)) = []
   /\ forall next log,
        signatureMiddleware host config (t_verify clock) req next log
        = (Responded invalid_signature,
           (log ++ [logger_warn "Invalid signature in public API request"])%list))
  /\ (strip_sha256_prefix sig = Some digest ->
      forall next log,
        signatureMiddleware host config (t_verify clock) req next log = next log).
Proof.
  intros Hgate Hapi Hsig Hs Hts Ht Hfresh Htext digest.
  assert (Hon : feature_enabled config = true).
  { unfold gate_open in Hgate. now apply andb_true_iff in Hgate as [-> _]. }
  assert (Hdigest : expected_signature host config req ts = digest).
  { unfold expected_signature, shared_secret, signed_payload.
    now rewrite Hapi, Htext. }
  pose proof (fun next log =>
    verifier_compares host config (t_verify clock) req sig ts next log
      Hsig Hs Hts Ht Hfresh Hon) as Hcmp.
  rewrite Hdigest in Hcmp.
  split.
  - intros Hbad.
    assert (Hd : differs_from (VString sig) ("sha256=" ++ digest) = true).
    { destruct (differs_from _ _) eqn:E; [reflexivity|].
      now apply differs_from_sha256 in E. }
    assert (Hserve : serve host config services clock req
              = (Responded invalid_signature,
                 [logger_warn "Invalid signature in public API request"])).
    { unfold serve, generateKeyRoute. rewrite gate_passes by exact Hgate.
      now rewrite Hcmp, Hd. }
    split; [exact Hserve|]. split.
    + now rewrite Hserve.
    + intros next log. now rewrite Hcmp, Hd.
  - intros Hgood next log. apply differs_from_sha256 in Hgood.
    now rewrite Hcmp, Hgood.
Qed.

Lemma signature_is_checked_witness :
  serve Fixture.host Fixture.open_config Fixture.services Fixture.clock
    (Fixture.with_signature "sha256=invalid-signature" "1767268800000" Fixture.test_payload)
  = (Responded invalid_signature, [logger_warn "Invalid signature in public API request"])
  /\ signatureMiddleware Fixture.host Fixture.open_config Fixture.noon
       (Fixture.request Fixture.test_payload) (ret tt) []
     = (Normal tt, []).
Proof.
  split.
  - apply (signature_is_checked Fixture.host Fixture.open_config Fixture.services
             Fixture.clock
             (Fixture.with_signature "sha256=invalid-signature" "1767268800000"
                Fixture.test_payload)
             {| enabled := true; allowedIPs := Some [];
                secret := "test-secret-key-for-public-api" |}
             "sha256=invalid-signature" "1767268800000"
             (Fixture.show_json Fixture.test_payload));
      try reflexivity; discriminate.
  - apply (signature_is_checked Fixture.host Fixture.open_config Fixture.services
             Fixture.clock (Fixture.request Fixture.test_payload)
             {| enabled := true; allowedIPs := Some [];
                secret := "test-secret-key-for-public-api" |}
             ("sha256=" ++ Fixture.tag "test-secret-key-for-public-api"
                             (Fixture.show_json Fixture.test_payload ++ "1767268800000"))
             "1767268800000"
             (Fixture.show_json Fixture.test_payload));
      try reflexivity; discriminate.
Defined.

(** C2. When the timestamp header parses to an integer [t] with
    [|now - t| > 300000], the answer is 401 whatever the signature header, and
    it is "Request timestamp too old or invalid" as soon as a signature header
    is there, be it the right one or not; when [|now - t| <= 300000], on
    either side of [now], the freshness test passes and the answer is left to
    the signature comparison. *)
Theorem stale_timestamp_is_refused
    (host : Host) (config : Config) (services : Services)
    (clock : Clock) (req : Request) (ts : string) (t : Z) :
  header (headers req) "x-timestamp" = VString ts ->
  parseInt ts = of_Z t ->
  let now := t_verify clock in
  (300000 < Z.abs (now - t) ->
   (forall next log,
      exists message,
        signatureMiddleware host config now req next log
        = (Responded {| status := 401; json := failure message |}, log))
   /\ (forall sig next log,
         header (headers req) "x-signature" = VString sig -> sig <> "" ->
         signatureMiddleware host config now req next log
         = (Responded {| status := 401;
                         json := failure "Request timestamp too old or invalid" |}, log))
   /\ (forall sig,
         header (headers req) "x-signature" = VString sig -> sig <> "" ->
         gate_open config req = true ->
         serve host config services clock req
         = (Responded {| status := 401;
                         json := failure "Request timestamp too old or invalid" |}, [])))
  /\ (Z.abs (now - t) <= 300000 ->
      stale now (parseInt ts) = false
      /\ forall sig next log,
           header (headers req) "x-signature" = VString sig -> sig <> "" ->
           feature_enabled config = true ->
           signatureMiddleware host config now req next log
           = if differs_from (VString sig)
                  ("sha256=" ++ expected_signature host config req ts)
             then (Responded invalid_signature,
                   (log ++ [logger_warn "Invalid signature in public API request"])%list)
             else next log).
Proof.
  intros Hts Hparse now.
  assert (Ht : ts <> "") by (intros ->; discriminate Hparse).
  split.
  - intros Hfar.
    assert (Hstale : stale now (parseInt ts) = true).
    { rewrite Hparse, stale_of_Z. now apply Z.ltb_lt. }
    split; [|split].
    + intros next log. now apply verifier_stale_any_signature with (ts := ts).
    + intros sig next log Hsig Hs. now apply verifier_stale with (sig := sig) (ts := ts).
    + intros sig Hsig Hs Hgate. unfold serve, generateKeyRoute.
      rewrite gate_passes by exact Hgate.
      now apply verifier_stale with (sig := sig) (ts := ts).
  - intros Hnear.
    assert (Hfresh : stale now (parseInt ts) = false).
    { rewrite Hparse, stale_of_Z. now apply Z.ltb_ge. }
    split; [exact Hfresh|].
    intros sig next log Hsig Hs Hon. now apply verifier_compares.
Qed.

Lemma stale_timestamp_is_refused_witness :
  serve Fixture.host Fixture.open_config Fixture.services Fixture.clock
    (Fixture.signed "10.0.0.1" "1767268499999" Fixture.test_payload)
  = (Responded {| status := 401;
                  json := failure "Request timestamp too old or invalid" |}, []).
Proof.
  apply (stale_timestamp_is_refused Fixture.host Fixture.open_config Fixture.services
           Fixture.clock
           (Fixture.signed "10.0.0.1" "1767268499999" Fixture.test_payload)
           "1767268499999" 1767268499999 eq_refl eq_refl)
    with (sig := ("sha256=" ++ Fixture.tag "test-secret-key-for-public-api"
                     (Fixture.show_json Fixture.test_payload ++ "1767268499999"))%string);
    try reflexivity.
  discriminate.
Defined.

(** C3. A timestamp header that is there but from which [parseInt] reads no
    number is not refused by the freshness test: [Math.abs(now - NaN) > 300000]
    is false, and the answer is the outcome of the signature comparison, never
    the 401 "Request timestamp too old or invalid". *)
Theorem non_numeric_timestamp_is_not_stale
    (host : Host) (config : Config) (now : Z) (req : Request) (sig ts : string) :
  header (headers req) "x-signature" = VString sig -> sig <> "" ->
  header (headers req) "x-timestamp" = VString ts -> ts <> "" ->
  parseInt ts = NaN ->
  feature_enabled config = true ->
  stale now (parseInt ts) = false
  /\ forall next log,
       signatureMiddleware host config now req next log
       = if differs_from (VString sig)
              ("sha256=" ++ expected_signature host config req ts)
         then (Responded invalid_signature,
               (log ++ [logger_warn "Invalid signature in public API request"])%list)
         else next log.
Proof.
  intros Hsig Hs Hts Ht Hnan Hon.
  assert (Hfresh : stale now (parseInt ts) = false) by now rewrite Hnan.
  split; [exact Hfresh|].
  intros next log. now apply verifier_compares.
Qed.

Lemma non_numeric_timestamp_is_not_stale_witness :
  signatureMiddleware Fixture.host Fixture.open_config Fixture.noon
    (Fixture.signed "10.0.0.1" "yesterday" Fixture.test_payload) (ret tt) []
  = (Normal tt, []).
Proof.
  refine (eq_trans
    (proj2 (non_numeric_timestamp_is_not_stale Fixture.host Fixture.open_config Fixture.noon
              (Fixture.signed "10.0.0.1" "yesterday" Fixture.test_payload)
              ("sha256=" ++ Fixture.tag "test-secret-key-for-public-api"
                 (Fixture.show_json Fixture.test_payload ++ "yesterday"))%string
              "yesterday" eq_refl _ eq_refl _ eq_refl eq_refl) (ret tt) []) _).
  - discriminate.
  - discriminate.
  - reflexivity.
Defined.

(** ** The handler *)

Section Handler.

Variable host : Host.
Variable services : Services.

Lemma object_coercible_ok (v : value) (log : list event) :
  nullish v = false -> object_coercible v log = (Normal v, log).
Proof. destruct v; simpl; intros H; try discriminate; reflexivity. Qed.

(** An accepted name is a string. *)
Lemma name_accepted_string (name : value) :
  name_rejected name = false -> exists s, name = VString s.
Proof.
  destruct name; try (eexists; reflexivity);
    unfold name_rejected; cbn; rewrite ?orb_true_r; discriminate.
Qed.

(** The four checks, in the order of the source. *)
Lemma handler_rejects_name (clock : Clock) (req : Request) (log : list event) :
  nullish (body req) = false ->
  name_rejected (get (body req) "name") = true ->
  generateKeyHandler host services clock req log
  = (Responded {| status := 400;
                  json := failure "Name is required and must be a non-empty string" |}, log).
Proof.
  intros Hbody Hname.
  unfold generateKeyHandler, try_catch, bind.
  rewrite object_coercible_ok by exact Hbody.
  now rewrite Hname.
Qed.

Lemma handler_rejects_tokenLimit (clock : Clock) (req : Request) (log : list event) :
  nullish (body req) = false ->
  name_rejected (get (body req) "name") = false ->
  limit_rejected host (get (body req) "tokenLimit") = true ->
  generateKeyHandler host services clock req log
  = (Responded {| status := 400; json := failure "Token limit must be a positive number" |},
     log).
Proof.
  intros Hbody Hname Htoken.
  unfold generateKeyHandler, try_catch, bind.
  rewrite object_coercible_ok by exact Hbody.
  now rewrite Hname, Htoken.
Qed.

Lemma handler_rejects_dailyCostLimit (clock : Clock) (req : Request) (log : list event) :
  nullish (body req) = false ->
  name_rejected (get (body req) "name") = false ->
  limit_rejected host (get (body req) "tokenLimit") = false ->
  limit_rejected host (get (body req) "dailyCostLimit") = true ->
  generateKeyHandler host services clock req log
  = (Responded {| status := 400;
                  json := failure "Daily cost limit must be a positive number" |}, log).
Proof.
  intros Hbody Hname Htoken Hdaily.
  unfold generateKeyHandler, try_catch, bind.
  rewrite object_coercible_ok by exact Hbody.
  now rewrite Hname, Htoken, Hdaily.
Qed.

Lemma handler_rejects_monthlyCostLimit (clock : Clock) (req : Request) (log : list event) :
  nullish (body req) = false ->
  name_rejected (get (body req) "name") = false ->
  limit_rejected host (get (body req) "tokenLimit") = false ->
  limit_rejected host (get (body req) "dailyCostLimit") = false ->
  limit_rejected host (get (body req) "monthlyCostLimit") = true ->
  generateKeyHandler host services clock req log
  = (Responded {| status := 400;
                  json := failure "Monthly cost limit must be a positive number" |}, log).
Proof.
  intros Hbody Hname Htoken Hdaily Hmonthly.
  unfold generateKeyHandler, try_catch, bind.
  rewrite object_coercible_ok by exact Hbody.
  now rewrite Hname, Htoken, Hdaily, Hmonthly.
Qed.

Lemma well_formed_parts (params : value) :
  well_formed host params = true ->
  nullish params = false
  /\ name_rejected (get params "name") = false
  /\ limit_rejected host (get params "tokenLimit") = false
  /\ limit_rejected host (get params "dailyCostLimit") = false
  /\ limit_rejected host (get params "monthlyCostLimit") = false
  /\ trimmable (get params "description") = true.
Proof.
  unfold well_formed, validated. intros H.
  split_checks.
  repeat split; assumption.
Qed.

(** A well-formed body reaches the issuance service, which is called once with
    [issued_options]; what it settles to goes to [shape_response]. *)
Lemma handler_issues (clock : Clock) (req : Request) (log : list event) :
  well_formed host (body req) = true ->
  days_throw (body req) = false ->
  generateKeyHandler host services clock req log
  = try_catch
      (apiKeyResult <- await (generateApiKey services (issued_options host clock (body req))) ;;
       shape_response host services clock
         (or_default (get (body req) "notifyFeishu") (VBool true))
         (get (body req) "feishuWebhook") apiKeyResult)
      (internal_error)
      (log ++ [apiKeyService_generateApiKey (issued_options host clock (body req))])%list.
Proof.
  intros Hwf Hdays.
  destruct (well_formed_parts _ Hwf) as (Hbody & Hname & Htoken & Hdaily & Hmonthly & Hdesc).
  destruct (name_accepted_string _ Hname) as [s Hs].
  unfold days_throw, days_of in Hdays.
  unfold generateKeyHandler, try_catch, bind, issued_options, expiry.
  rewrite object_coercible_ok by exact Hbody.
  rewrite Hname, Htoken, Hdaily, Hmonthly, Hdays. cbn [when ret].
  rewrite Hs. cbn [call_trim ret trimmed_name].
  destruct (get (body req) "description"); try discriminate Hdesc; reflexivity.
Qed.

(** A day count that is absent or a number does not throw. *)
Lemma days_as_specified_safe (params : value) :
  days_as_specified params -> days_throw params = false.
Proof.
  unfold days_throw, days_of.
  intros [-> | [n ->]]; cbn [or_default ToPrimitive_throws]; apply andb_false_r.
Qed.

Lemma number_days_safe (params : value) (n : number) :
  get params "expirationDays" = VNumber n -> days_throw params = false.
Proof.
  unfold days_throw, days_of. intros ->. cbn [or_default ToPrimitive_throws].
  apply andb_false_r.
Qed.

End Handler.

Section Issuance.

Variable host : Host.
Variable services : Services.

Lemma keyed_result_truthy (result : value) (k : string) :
  get result "apiKey" = VString k -> truthy result = true.
Proof. destruct result; simpl; try discriminate; reflexivity. Qed.

(** Lines 191-232 on a result that carries a key: the response is the 200
    payload whatever the notification step does; the log gains the line on the
    new key and what the notification step adds. *)
Lemma shape_response_key
    (clock : Clock) (notifyFeishu feishuWebhook result : value) (k : string)
    (log : list event) :
  get result "apiKey" = VString k -> k <> "" ->
  ToPrimitive_throws (get result "id") = false ->
  shape_response host services clock notifyFeishu feishuWebhook result log
  = (Responded {| status := 200;
                  json := success_payload (VString k) (rest_without "apiKey" result)
                            (substring_to 8 k) |},
     (log ++ logger_info ("Public API generated new API key: "
                          ++ ToString host (get (rest_without "apiKey" result) "id"))
          :: notification_log host services clock notifyFeishu feishuWebhook
               (rest_without "apiKey" result) k)%list).
Proof.
  intros Hkey Hk Hid.
  assert (Hid' : ToPrimitive_throws (get (rest_without "apiKey" result) "id") = false)
    by (now rewrite get_rest_without).
  unfold shape_response, notification_log, bind, when, template.
  rewrite (keyed_result_truthy _ _ Hkey), Hkey, Hid'. cbn [truthy].
  apply String.eqb_neq in Hk. rewrite Hk. cbn [negb orb ret emit].
  destruct (truthy notifyFeishu).
  - unfold sendApiKeyCreatedNotification, try_catch, bind, template.
    rewrite Hid'. cbn [call_substring_0_8 ret emit].
    destruct (sendNotification services _ _); cbn [await ret throw emit respond];
      rewrite <- !app_assoc; reflexivity.
  - reflexivity.
Qed.

(** The notification step goes on or throws; it never answers the request. *)
Lemma notification_never_responds
    (now : Z) (apiKey keyInfo feishuWebhook : value) (log : list event) :
  match fst (sendApiKeyCreatedNotification host services now apiKey keyInfo feishuWebhook log)
  with
  | Responded _ => False
  | _ => True
  end.
Proof.
  unfold sendApiKeyCreatedNotification, try_catch, bind, template.
  destruct apiKey; cbn [call_substring_0_8 ret throw emit fst]; try exact I.
  destruct (sendNotification services _ _); cbn [await ret throw emit fst]; [|exact I].
  destruct (ToPrimitive_throws _); exact I.
Qed.

(** Lines 191-232 answer 200 or 500, or throw. *)
Lemma shape_response_status
    (clock : Clock) (notifyFeishu feishuWebhook result : value) (log : list event) :
  post (fun _ => False) (fun r => status r = 200 \/ status r = 500)
    (shape_response host services clock notifyFeishu feishuWebhook result log).
Proof.
  unfold shape_response.
  apply post_bind with (N := fun _ => True).
  { unfold when. destruct (_ || _); cbn; auto. }
  intros _ log1 _.
  apply post_bind with (N := fun _ => True).
  { unfold template. destruct (ToPrimitive_throws _); exact I. }
  intros id log1' _.
  apply post_bind with (N := fun _ => True); [exact I|].
  intros _ log2 _.
  apply post_bind with (N := fun _ => True).
  { unfold when. destruct (truthy notifyFeishu); [|exact I].
    unfold try_catch.
    pose proof (notification_never_responds (t_notify clock) (get result "apiKey")
                  (rest_without "apiKey" result) feishuWebhook log2) as Hn.
    destruct (sendApiKeyCreatedNotification _ _ _ _ _ _ _) as [[?|?|?] ?];
      cbn [fst] in Hn; [exact I | contradiction | exact I]. }
  intros _ log3 _.
  apply post_bind with (N := fun _ => True).
  { destruct (get result "apiKey"); exact I. }
  intros prefix log4 _. cbn. now left.
Qed.

(** Once the four checks have passed, the handler answers 200 or 500. *)
Lemma handler_after_validation
    (clock : Clock) (req : Request) (log : list event) :
  nullish (body req) = false ->
  validated host (body req) = true ->
  exists r log',
    generateKeyHandler host services clock req log = (Responded r, log')
    /\ (status r = 200 \/ status r = 500).
Proof.
  intros Hbody Hvalid.
  unfold validated in Hvalid.
  split_checks.
  unfold generateKeyHandler.
  apply try_catch_internal_error
    with (R := fun r => status r = 200 \/ status r = 500); [now right|].
  intros log0.
  apply post_bind with (N := fun params => params = body req).
  { rewrite object_coercible_ok by exact Hbody. reflexivity. }
  intros params log1 ->.
  repeat match goal with H : _ = false |- _ => rewrite H end.
  cbn [when]. rewrite !bind_ret.
  apply post_bind with (N := fun _ => True).
  { unfold expiry. destruct (_ && _); exact I. }
  intros expiresAt log1' _.
  apply post_bind with (N := fun _ => True).
  { destruct (get (body req) "name"); exact I. }
  intros trimmedName log2 _.
  apply post_bind with (N := fun _ => True).
  { destruct (get (body req) "description"); exact I. }
  intros trimmedDescription log3 _.
  apply post_bind with (N := fun _ => True); [exact I|].
  intros _ log4 _.
  apply post_bind with (N := fun _ => True).
  { destruct (generateApiKey services _); exact I. }
  intros apiKeyResult log5 _.
  apply shape_response_status.
Qed.

End Issuance.

(** ** From the route to the handler, and the handler on a well-formed body *)

Section Route.

Variable host : Host.
Variable config : Config.
Variable services : Services.

Lemma authenticated_gate (clock : Clock) (req : Request) :
  authenticated host config clock req = true -> gate_open config req = true.
Proof.
  unfold authenticated. intros H.
  do 4 (apply andb_true_iff in H as [H _]). exact H.
Qed.

(** An authenticated request is served by the handler. *)
Lemma serve_authenticated (clock : Clock) (req : Request) :
  authenticated host config clock req = true ->
  serve host config services clock req = generateKeyHandler host services clock req [].
Proof.
  intros Hauth. pose proof (authenticated_gate _ _ Hauth) as Hgate.
  unfold serve, generateKeyRoute. rewrite gate_passes by exact Hgate.
  unfold authenticated in Hauth.
  split_checks.
  unfold signatureMiddleware.
  repeat match goal with H : _ = true |- _ => rewrite H | H : _ = false |- _ => rewrite H end.
  cbn [negb orb].
  unfold gate_open, feature_enabled in Hgate.
  unfold expected_signature, shared_secret in *.
  destruct (publicApi config) as [api|]; [|discriminate].
  match goal with H : differs_from _ _ = false |- _ => now rewrite H end.
Qed.

(** The handler on a well-formed body whose issuance yields a key [k]. *)
Lemma handler_success (clock : Clock) (req : Request) (result : value) (k : string)
    (log : list event) :
  well_formed host (body req) = true ->
  days_throw (body req) = false ->
  generateApiKey services (issued_options host clock (body req)) = Fulfilled result ->
  get result "apiKey" = VString k -> k <> "" ->
  ToPrimitive_throws (get result "id") = false ->
  generateKeyHandler host services clock req log
  = (Responded {| status := 200;
                  json := success_payload (VString k) (rest_without "apiKey" result)
                            (substring_to 8 k) |},
     (log ++ apiKeyService_generateApiKey (issued_options host clock (body req))
          :: logger_info ("Public API generated new API key: "
                          ++ ToString host (get (rest_without "apiKey" result) "id"))
          :: notification_log host services clock
               (or_default (get (body req) "notifyFeishu") (VBool true))
               (get (body req) "feishuWebhook") (rest_without "apiKey" result) k)%list).
Proof.
  intros Hwf Hdays Hissue Hkey Hk Hid.
  rewrite handler_issues by assumption.
  unfold try_catch, bind. rewrite Hissue. cbn [await ret].
  rewrite (shape_response_key host services clock _ _ result k _ Hkey Hk Hid).
  rewrite <- app_assoc. reflexivity.
Qed.

(** The first failing check answers, with its own message. *)
Lemma handler_first_failure (clock : Clock) (req : Request) (log : list event)
    (message : string) :
  nullish (body req) = false ->
  first_failure host (body req) = Some message ->
  generateKeyHandler host services clock req log
  = (Responded {| status := 400; json := failure message |}, log).
Proof.
  intros Hbody. unfold first_failure.
  destruct (name_rejected _) eqn:Hname.
  { intros [= <-]. now apply handler_rejects_name. }
  destruct (limit_rejected host (get (body req) "tokenLimit")) eqn:Htoken.
  { intros [= <-]. now apply handler_rejects_tokenLimit. }
  destruct (limit_rejected host (get (body req) "dailyCostLimit")) eqn:Hdaily.
  { intros [= <-]. now apply handler_rejects_dailyCostLimit. }
  destruct (limit_rejected host (get (body req) "monthlyCostLimit")) eqn:Hmonthly.
  { intros [= <-]. now apply handler_rejects_monthlyCostLimit. }
  discriminate.
Qed.

Lemma first_failure_none (params : value) :
  first_failure host params = None -> validated host params = true.
Proof.
  unfold first_failure, validated.
  repeat match goal with
         | |- context [if ?c then _ else _] => destruct c; try discriminate
         end.
  reflexivity.
Qed.

(** A 400 of the handler is the message of the first failing check. *)
Lemma handler_400_first_failure (clock : Clock) (req : Request) (log log' : list event)
    (r : Response) :
  nullish (body req) = false ->
  generateKeyHandler host services clock req log = (Responded r, log') ->
  status r = 400 ->
  exists message,
    first_failure host (body req) = Some message /\ json r = failure message.
Proof.
  intros Hbody Hrun Hstatus.
  destruct (first_failure host (body req)) as [message|] eqn:Hfirst.
  - rewrite (handler_first_failure clock req log message Hbody Hfirst) in Hrun.
    injection Hrun as <- _. eauto.
  - apply first_failure_none in Hfirst.
    destruct (handler_after_validation host services clock req log Hbody Hfirst)
      as (r' & log'' & Hrun' & Hst).
    rewrite Hrun' in Hrun. injection Hrun as -> _. lia.
Qed.

End Route.

(** A limit is refused exactly when it is truthy and not a positive number. *)
Lemma limit_rejected_spec (host : Host) (limit : value) :
  limit_rejected host limit = truthy limit && negb (positive_number limit).
Proof.
  unfold limit_rejected, positive_number, le_number.
  destruct limit as [| |b|n|s|t|items|fields]; cbn [truthy typeof ToNumber];
    try reflexivity.
  destruct n as [|[|]|q]; try reflexivity.
  cbn. unfold Qlt_bool. now rewrite negb_involutive.
Qed.

(** ** Claims on the validation of the body *)

(** C10. On a request that has a body, the checks run in the order name,
    token limit, daily cost limit, monthly cost limit, and the first that
    fails gives the one 400 message: a refused name is answered with the
    message on the name whatever the limits are, and a 400 on a limit means
    the name and every earlier limit were accepted. *)
Theorem validation_order
    (host : Host) (config : Config) (services : Services)
    (clock : Clock) (req : Request) :
  nullish (body req) = false ->
  let params := body req in
  let handler := generateKeyHandler host services clock req in
  (forall log message,
     first_failure host params = Some message ->
     handler log = (Responded {| status := 400; json := failure message |}, log))
  /\ (forall log,
        name_rejected (get params "name") = true ->
        handler log
        = (Responded {| status := 400;
                        json := failure "Name is required and must be a non-empty string" |},
           log))
  /\ (authenticated host config clock req = true ->
      name_rejected (get params "name") = true ->
      serve host config services clock req
      = (Responded {| status := 400;
                      json := failure "Name is required and must be a non-empty string" |},
         []))
  /\ (forall log log' r,
        handler log = (Responded r, log') -> status r = 400 ->
        (exists message,
           first_failure host params = Some message /\ json r = failure message)
        /\ (json r = failure "Token limit must be a positive number" ->
            name_rejected (get params "name") = false
            /\ limit_rejected host (get params "tokenLimit") = true)
        /\ (json r = failure "Daily cost limit must be a positive number" ->
            name_rejected (get params "name") = false
            /\ limit_rejected host (get params "tokenLimit") = false
            /\ limit_rejected host (get params "dailyCostLimit") = true)
        /\ (json r = failure "Monthly cost limit must be a positive number" ->
            name_rejected (get params "name") = false
            /\ limit_rejected host (get params "tokenLimit") = false
            /\ limit_rejected host (get params "dailyCostLimit") = false
            /\ limit_rejected host (get params "monthlyCostLimit") = true)).
Proof.
  intros Hbody params handler.
  split; [|split; [|split]].
  - intros log message Hfirst. now apply handler_first_failure.
  - intros log Hname. now apply handler_rejects_name.
  - intros Hauth Hname. rewrite serve_authenticated by exact Hauth.
    now apply handler_rejects_name.
  - intros log log' r Hrun Hstatus.
    destruct (handler_400_first_failure host services clock req log log' r
                Hbody Hrun Hstatus) as (message & Hfirst & Hjson).
    split; [eauto|].
    rewrite Hjson. unfold first_failure in Hfirst. fold params in Hfirst.
    destruct (name_rejected (get params "name"));
      [injection Hfirst as <-; repeat split; discriminate|].
    destruct (limit_rejected host (get params "tokenLimit"));
      [injection Hfirst as <-; repeat split; reflexivity || discriminate|].
    destruct (limit_rejected host (get params "dailyCostLimit"));
      [injection Hfirst as <-; repeat split; reflexivity || discriminate|].
    destruct (limit_rejected host (get params "monthlyCostLimit"));
      [injection Hfirst as <-; repeat split; reflexivity || discriminate|].
    discriminate.
Qed.

Lemma validation_order_witness :
  serve Fixture.host Fixture.open_config Fixture.services Fixture.clock
    (Fixture.request Fixture.all_wrong_payload)
  = (Responded {| status := 400;
                  json := failure "Name is required and must be a non-empty string" |},
     []).
Proof.
  apply (validation_order Fixture.host Fixture.open_config Fixture.services Fixture.clock
           (Fixture.request Fixture.all_wrong_payload)); reflexivity.
Defined.

Lemma improper_limit_rejected (host : Host) (limit : value) :
  improper_limit limit = limit_rejected host limit.
Proof. symmetry. apply limit_rejected_spec. Qed.

(** C4, as stated, fails: a token limit of [0] is there and is not a positive
    number, yet the request is answered 200 and the issuance service is called
    with that limit. *)
Lemma zero_limit_is_accepted :
  authenticated Fixture.host Fixture.open_config Fixture.clock
    (Fixture.request Fixture.zero_limit_payload) = true
  /\ present (get Fixture.zero_limit_payload "tokenLimit") = true
  /\ positive_number (get Fixture.zero_limit_payload "tokenLimit") = false
  /\ option_map status
       (response_of (serve Fixture.host Fixture.open_config Fixture.services Fixture.clock
                       (Fixture.request Fixture.zero_limit_payload)))
     = Some 200
  /\ issuance_calls
       (snd (serve Fixture.host Fixture.open_config Fixture.services Fixture.clock
               (Fixture.request Fixture.zero_limit_payload)))
     = [apiKeyService_generateApiKey
          (issued_options Fixture.host Fixture.clock Fixture.zero_limit_payload)]
  /\ get (issued_options Fixture.host Fixture.clock Fixture.zero_limit_payload) "tokenLimit"
     = VNumber (of_Z 0).
Proof. repeat split; reflexivity. Qed.

(** C4, amended. For an authenticated request in which one of [tokenLimit],
    [dailyCostLimit], [monthlyCostLimit] has a truthy value that is not a
    positive number, the answer is 400 and the issuance service is not called
    (nothing at all is called or logged); when the name is accepted, the
    message is the one of the first such limit in the order token, daily,
    monthly. *)
Theorem improper_limit_is_refused
    (host : Host) (config : Config) (services : Services)
    (clock : Clock) (req : Request) :
  authenticated host config clock req = true ->
  nullish (body req) = false ->
  let tokenLimit := get (body req) "tokenLimit" in
  let dailyCostLimit := get (body req) "dailyCostLimit" in
  let monthlyCostLimit := get (body req) "monthlyCostLimit" in
  let run := serve host config services clock req in
  (improper_limit tokenLimit = true
   \/ improper_limit dailyCostLimit = true
   \/ improper_limit monthlyCostLimit = true ->
   option_map status (response_of run) = Some 400 /\ snd run = [])
  /\ (name_rejected (get (body req) "name") = false ->
      (improper_limit tokenLimit = true ->
       run = (Responded {| status := 400;
                           json := failure "Token limit must be a positive number" |}, []))
      /\ (improper_limit tokenLimit = false ->
          improper_limit dailyCostLimit = true ->
          run = (Responded {| status := 400;
                              json := failure "Daily cost limit must be a positive number" |},
                 []))
      /\ (improper_limit tokenLimit = false ->
          improper_limit dailyCostLimit = false ->
          improper_limit monthlyCostLimit = true ->
          run = (Responded {| status := 400;
                              json := failure "Monthly cost limit must be a positive number" |},
                 []))).
Proof.
  intros Hauth Hbody tokenLimit dailyCostLimit monthlyCostLimit run.
  unfold run. rewrite serve_authenticated by exact Hauth.
  unfold tokenLimit, dailyCostLimit, monthlyCostLimit.
  rewrite !(improper_limit_rejected host).
  split.
  - intros Hbad.
    assert (exists message, first_failure host (body req) = Some message) as [message Hm].
    { unfold first_failure.
      destruct (name_rejected _); [eauto|].
      destruct (limit_rejected host (get (body req) "tokenLimit")); [eauto|].
      destruct (limit_rejected host (get (body req) "dailyCostLimit")); [eauto|].
      destruct (limit_rejected host (get (body req) "monthlyCostLimit")); [eauto|].
      destruct Hbad as [H | [H | H]]; discriminate. }
    rewrite (handler_first_failure host services clock req [] message Hbody Hm).
    split; reflexivity.
  - intros Hname. repeat split.
    + intros Htoken. now apply handler_rejects_tokenLimit.
    + intros Htoken Hdaily. now apply handler_rejects_dailyCostLimit.
    + intros Htoken Hdaily Hmonthly. now apply handler_rejects_monthlyCostLimit.
Qed.

Lemma improper_limit_is_refused_witness :
  serve Fixture.host Fixture.open_config Fixture.services Fixture.clock
    (Fixture.request Fixture.negative_daily_payload)
  = (Responded {| status := 400;
                  json := failure "Daily cost limit must be a positive number" |}, []).
Proof.
  apply (improper_limit_is_refused Fixture.host Fixture.open_config Fixture.services
           Fixture.clock (Fixture.request Fixture.negative_daily_payload));
    reflexivity.
Defined.

(** ** The successful response *)

Lemma length_substring_to (n : nat) (s : string) :
  String.length (substring_to n s) = Nat.min n (String.length s).
Proof.
  unfold substring_to. revert s.
  induction n as [|n IH]; intros [|c s]; cbn; try reflexivity.
  now rewrite IH.
Qed.

Lemma length_append (s1 s2 : string) :
  String.length (s1 ++ s2) = (String.length s1 + String.length s2)%nat.
Proof. induction s1 as [|c s1 IH]; cbn; [reflexivity | now rewrite IH]. Qed.

(** The redacted prefix is not the key, unless the key is eight characters
    followed by three dots. *)
Lemma prefix_is_not_the_key (k : string) :
  String.length k <> 11%nat -> (substring_to 8 k ++ "...")%string <> k.
Proof.
  intros Hlen Heq. apply (f_equal String.length) in Heq.
  rewrite length_append, length_substring_to in Heq.
  cbn [String.length] in Heq. lia.
Qed.

(** ** The expiry *)

Lemma num_truthy_of_Z (n : Z) : num_truthy (of_Z n) = negb (n =? 0).
Proof.
  unfold num_truthy, of_Z, Qeq_bool, inject_Z. cbn [Qnum Qden].
  rewrite Z.mul_1_r. reflexivity.
Qed.

Lemma num_gt_of_Z (n m : Z) : num_gt (of_Z n) (of_Z m) = (m <? n).
Proof.
  unfold num_gt, num_lt, of_Z, Qlt_bool, Qle_bool, inject_Z. cbn [Qnum Qden].
  rewrite !Z.mul_1_r. symmetry. apply Z.ltb_antisym.
Qed.

Lemma num_add_of_Z (n m : Z) :
  exists q, num_add (of_Z n) (of_Z m) = Fin q /\ Qtrunc q = n + m.
Proof.
  eexists. split; [reflexivity|].
  unfold Qtrunc, Qplus, inject_Z. cbn [Qnum Qden Pos.mul].
  rewrite !Z.mul_1_r. apply Z.quot_1_r.
Qed.

Module JSDateFacts.

Import JSDate.

Lemma month_of_day_range (d leap : Z) : 0 <= month_of_day d leap <= 11.
Proof.
  unfold month_of_day.
  repeat match goal with
         | |- context [if ?c then _ else _] => destruct c
         end; lia.
Qed.

(** [YearFromTime] is the year of the day of [t]: the estimate is exact. *)
Lemma YearFromTime_spec (t : Z) :
  DayFromYear (YearFromTime t) <= Day t < DayFromYear (YearFromTime t + 1).
Proof.
  unfold YearFromTime. generalize (Day t) as d. intros d. cbv zeta.
  destruct (Z.ltb_spec d (DayFromYear (1970 + d * 400 / 146097))) as [H1|H1].
  - replace (1970 + d * 400 / 146097 - 1 + 1) with (1970 + d * 400 / 146097) by lia.
    split; [|exact H1]. clear H1.
    unfold DayFromYear. Z.to_euclidean_division_equations. lia.
  - destruct (Z.leb_spec (DayFromYear (1970 + d * 400 / 146097 + 1)) d) as [H2|H2].
    + split; [exact H2|]. clear H1 H2.
      unfold DayFromYear. Z.to_euclidean_division_equations. lia.
    + split; assumption.
Qed.

(** The first day of the month of [t], and the day of the month of [t], make
    up the day of [t]. *)
Lemma day_of_month_start (t : Z) :
  DayFromYear (YearFromTime t)
  + month_start (MonthFromTime t) (InLeapYear t) + DateFromTime t - 1
  = Day t.
Proof. unfold DateFromTime, DayWithinYear. lia. Qed.

(** MakeDay on the year and month of [t] and its day of the month plus [n]. *)
Lemma MakeDay_days_later (t n : Z) :
  MakeDay (YearFromTime t) (MonthFromTime t) (num_add (of_Z (DateFromTime t)) (of_Z n))
  = Some (Day t + n).
Proof.
  destruct (num_add_of_Z (DateFromTime t) n) as (q & -> & Hq).
  unfold MakeDay. rewrite Hq.
  pose proof (month_of_day_range (DayWithinYear t) (InLeapYear t)) as Hm.
  fold (MonthFromTime t) in Hm.
  rewrite Z.div_small, Z.mod_small, Z.add_0_r by lia.
  fold (InLeapYear t). f_equal.
  pose proof (day_of_month_start t). lia.
Qed.

Lemma MakeDate_days_later (t n : Z) :
  MakeDate (Some (Day t + n)) (TimeWithinDay t) = Some (t + n * msPerDay).
Proof.
  unfold MakeDate, Day, TimeWithinDay. f_equal.
  pose proof (Z.div_mod t msPerDay ltac:(discriminate)). lia.
Qed.

Section Zone.

Variable host : Host.

(** [d.setDate(d.getDate() + n)] is [n] days later on the local clock. *)
Lemma setDate_days_later (now n : Z) :
  setDate host (Some now) (number_plus host (getDate host (Some now)) (VNumber (of_Z n)))
  = TimeClip (UTC host (Some (LocalTime host now + n * msPerDay))).
Proof.
  unfold setDate, getDate, number_plus. cbn [ToNumber].
  now rewrite MakeDay_days_later, MakeDate_days_later.
Qed.

Lemma compute_expiresAt_days (now n : Z) :
  0 < n ->
  compute_expiresAt host now (VNumber (of_Z n))
  = VDate (TimeClip (UTC host (Some (LocalTime host now + n * msPerDay)))).
Proof.
  intros Hn. unfold compute_expiresAt, gt_number. cbn [truthy ToNumber].
  rewrite num_truthy_of_Z, num_gt_of_Z.
  replace (n =? 0) with false by (symmetry; apply Z.eqb_neq; lia).
  replace (0 <? n) with true by (symmetry; apply Z.ltb_lt; lia).
  cbn [negb andb]. now rewrite setDate_days_later.
Qed.

Lemma compute_expiresAt_zero (now : Z) :
  compute_expiresAt host now (VNumber (of_Z 0)) = VNull.
Proof. reflexivity. Qed.


End Zone.

End JSDateFacts.


(** * More of the code *)

(** ** The timestamp of the client *)

Lemma read_digits_acc (d : Decimal.uint) (a : positive) :
  read_digits 10 (NilEmpty.string_of_uint d) (Some (Zpos a))
  = Some (Zpos (Pos.of_uint_acc d a)).
Proof.
  revert a. induction d; intros a; cbn [NilEmpty.string_of_uint read_digits Pos.of_uint_acc];
    [reflexivity|..];
    match goal with
    | |- context [digit_value 10 ?c] =>
        let v := eval vm_compute in (digit_value 10 c) in
        change (digit_value 10 c) with v
    end; cbv iota beta; rewrite <- IHd; do 2 f_equal; lia.
Qed.

Lemma read_digits_zero (d : Decimal.uint) :
  read_digits 10 (NilEmpty.string_of_uint d) (Some 0) = Some (Z.of_N (Pos.of_uint d)).
Proof.
  induction d; cbn [NilEmpty.string_of_uint read_digits Pos.of_uint];
    [reflexivity|..];
    match goal with
    | |- context [digit_value 10 ?c] =>
        let v := eval vm_compute in (digit_value 10 c) in
        change (digit_value 10 c) with v
    end; cbv iota beta; [exact IHd|..]; apply read_digits_acc.
Qed.

Lemma read_digits_none (d : Decimal.uint) :
  d <> Decimal.Nil ->
  read_digits 10 (NilEmpty.string_of_uint d) None = Some (Z.of_N (Pos.of_uint d)).
Proof.
  destruct d; intros Hd; [contradiction|..];
    cbn [NilEmpty.string_of_uint read_digits Pos.of_uint];
    match goal with
    | |- context [digit_value 10 ?c] =>
        let v := eval vm_compute in (digit_value 10 c) in
        change (digit_value 10 c) with v
    end; cbv iota beta; [apply read_digits_zero|..]; apply read_digits_acc.
Qed.

Lemma parseInt_digits (d : Decimal.uint) :
  d <> Decimal.Nil ->
  parseInt (NilEmpty.string_of_uint d) = of_Z (Z.of_N (Pos.of_uint d)).
Proof.
  intros Hd. pose proof (read_digits_none d Hd) as Hread.
  destruct d; [contradiction|..]; try destruct d;
    cbn [NilEmpty.string_of_uint] in *; unfold parseInt;
    cbn -[read_digits Z.mul of_Z]; rewrite Hread, Z.mul_1_l; reflexivity.
Qed.

Lemma parseInt_negative_digits (d : Decimal.uint) :
  d <> Decimal.Nil ->
  parseInt (String "-" (NilEmpty.string_of_uint d)) = of_Z (- Z.of_N (Pos.of_uint d)).
Proof.
  intros Hd. pose proof (read_digits_none d Hd) as Hread.
  destruct d; [contradiction|..]; try destruct d;
    cbn [NilEmpty.string_of_uint] in *; unfold parseInt;
    cbn -[read_digits Z.mul of_Z]; rewrite Hread; f_equal; lia.
Qed.

Lemma parseInt_integer_toString (z : Z) : parseInt (integer_toString z) = of_Z z.
Proof.
  unfold integer_toString. destruct z as [|p|p]; cbn [Z.to_int NilEmpty.string_of_int].
  - reflexivity.
  - rewrite parseInt_digits by apply Unsigned.to_uint_nonnil.
    now rewrite Unsigned.of_to.
  - rewrite parseInt_negative_digits by apply Unsigned.to_uint_nonnil.
    now rewrite Unsigned.of_to.
Qed.

(** ** The decisions of the gate and of the verifier *)

Section VerifierDecision.

Variable host : Host.
Variable config : Config.

Lemma header_shape (hs : list (string * string)) (k : string) :
  header hs k = VUndefined \/ exists s, header hs k = VString s.
Proof.
  induction hs as [|[k' v] rest IH]; cbn [header]; [now left|].
  destruct (k =? k')%string; [right; eauto | exact IH].
Qed.

Lemma verifier_missing (now : Z) (req : Request) (next : Js unit) (log : list event) :
  truthy (header (headers req) "x-signature") = false
  \/ truthy (header (headers req) "x-timestamp") = false ->
  signatureMiddleware host config now req next log
  = (Responded {| status := 401; json := failure "Missing signature or timestamp" |}, log).
Proof.
  intros H. unfold signatureMiddleware.
  destruct H as [-> | ->]; cbn [negb orb]; rewrite ?orb_true_r; reflexivity.
Qed.

Lemma verifier_accepts_passes (now : Z) (req : Request) (next : Js unit) (log : list event) :
  feature_enabled config = true ->
  verifier_accepts host config now req = true ->
  signatureMiddleware host config now req next log = next log.
Proof.
  intros Hon Hacc. unfold verifier_accepts in Hacc. split_checks.
  unfold signatureMiddleware.
  repeat match goal with H : _ = true |- _ => rewrite H | H : _ = false |- _ => rewrite H end.
  cbn [negb orb].
  unfold feature_enabled in Hon. unfold expected_signature, shared_secret in *.
  destruct (publicApi config) as [api|]; [|discriminate].
  match goal with H : differs_from _ _ = false |- _ => now rewrite H end.
Qed.

Lemma verifier_refuses (now : Z) (req : Request) :
  feature_enabled config = true ->
  verifier_accepts host config now req = false ->
  exists message added,
    (added = [] \/ added = [logger_warn "Invalid signature in public API request"])
    /\ forall next log,
         signatureMiddleware host config now req next log
         = (Responded {| status := 401; json := failure message |}, (log ++ added)%list).
Proof.
  intros Hon Hrej. unfold verifier_accepts in Hrej. unfold signatureMiddleware.
  unfold feature_enabled in Hon. unfold expected_signature, shared_secret in *.
  destruct (publicApi config) as [api|]; [|discriminate].
  destruct (truthy (header (headers req) "x-signature")); cbn [negb orb andb] in *.
  2:{ exists "Missing signature or timestamp", []. split; [now left|].
      intros next log. now rewrite app_nil_r. }
  destruct (truthy (header (headers req) "x-timestamp")); cbn [negb orb andb] in *.
  2:{ exists "Missing signature or timestamp", []. split; [now left|].
      intros next log. now rewrite app_nil_r. }
  destruct (stale now _); cbn [negb andb] in *.
  { exists "Request timestamp too old or invalid", []. split; [now left|].
    intros next log. now rewrite app_nil_r. }
  destruct (differs_from _ _); cbn [negb] in *; [|discriminate].
  exists "Invalid signature", [logger_warn "Invalid signature in public API request"].
  split; [now right|]. intros next log. reflexivity.
Qed.

Lemma gate_shut (req : Request) :
  gate_open config req = false ->
  exists message added,
    (added = []
     \/ added = [logger_warn ("Unauthorized IP access attempt: "
                              ++ ToString host (js_or (ip req) (remoteAddress req)))])
    /\ forall next log,
         ipWhitelistMiddleware host config req next log
         = (Responded {| status := 403; json := failure message |}, (log ++ added)%list).
Proof.
  intros Hshut. unfold gate_open in Hshut.
  destruct (feature_enabled config) eqn:Hon; cbn [andb] in Hshut.
  - apply orb_false_iff in Hshut as [Hne Hout].
    exists "IP not allowed". eexists. split; [now right|].
    intros next log. apply gate_refuses; [exact Hon | | exact Hout].
    intros Hnil. now rewrite Hnil in Hne.
  - exists "Public API is disabled", []. split; [now left|].
    intros next log. rewrite app_nil_r. now apply gate_closed.
Qed.

End VerifierDecision.

(** ** The handler, case by case *)

Section HandlerCases.

Variable host : Host.
Variable services : Services.

Lemma first_failure_validated (params : value) :
  validated host params = true -> first_failure host params = None.
Proof.
  unfold validated, first_failure. intros H. split_checks.
  repeat match goal with H : _ = false |- _ => rewrite H end. reflexivity.
Qed.

Lemma first_failure_some_not_validated (params : value) (message : string) :
  first_failure host params = Some message -> validated host params = false.
Proof.
  intros H. destruct (validated host params) eqn:E; [|reflexivity].
  apply first_failure_validated in E. congruence.
Qed.

Lemma reaches_issuance_parts (params : value) :
  reaches_issuance host params = true ->
  well_formed host params = true /\ days_throw params = false.
Proof.
  unfold reaches_issuance. intros H. apply andb_true_iff in H as [Hwf Hd].
  apply negb_true_iff in Hd. now split.
Qed.

Lemma internal_error_run (e : error) (log : list event) :
  internal_error e log
  = (Responded internal_server_error,
     (log ++ [logger_error "Error in public API generate-key:"])%list).
Proof. reflexivity. Qed.

(** No body: reading a property of [undefined] or [null] throws. *)
Lemma handler_no_body (clock : Clock) (req : Request) (log : list event) :
  nullish (body req) = true ->
  generateKeyHandler host services clock req log
  = (Responded internal_server_error,
     (log ++ [logger_error "Error in public API generate-key:"])%list).
Proof.
  intros Hbody. unfold generateKeyHandler, try_catch, bind.
  destruct (body req); try discriminate Hbody; reflexivity.
Qed.

(** A day count that cannot be converted throws at line 172. *)
Lemma handler_days_throw (clock : Clock) (req : Request) (log : list event) :
  nullish (body req) = false ->
  validated host (body req) = true ->
  days_throw (body req) = true ->
  generateKeyHandler host services clock req log
  = (Responded internal_server_error,
     (log ++ [logger_error "Error in public API generate-key:"])%list).
Proof.
  intros Hbody Hvalid Hdays.
  unfold validated in Hvalid. split_checks.
  unfold days_throw, days_of in Hdays.
  unfold generateKeyHandler, try_catch, bind, expiry.
  rewrite object_coercible_ok by exact Hbody.
  repeat match goal with H : _ = false |- _ => rewrite H end.
  cbn [when ret]. now rewrite Hdays.
Qed.

(** A description that has no [trim] method throws before the service is
    called. *)
Lemma handler_untrimmable (clock : Clock) (req : Request) (log : list event) :
  nullish (body req) = false ->
  validated host (body req) = true ->
  trimmable (get (body req) "description") = false ->
  generateKeyHandler host services clock req log
  = (Responded internal_server_error,
     (log ++ [logger_error "Error in public API generate-key:"])%list).
Proof.
  intros Hbody Hvalid Hdesc.
  destruct (days_throw (body req)) eqn:Hdays.
  { now apply handler_days_throw. }
  unfold validated in Hvalid. split_checks.
  match goal with H : name_rejected _ = false |- _ =>
    destruct (name_accepted_string _ H) as [s Hs] end.
  unfold days_throw, days_of in Hdays.
  unfold generateKeyHandler, try_catch, bind, expiry.
  rewrite object_coercible_ok by exact Hbody.
  repeat match goal with H : _ = false |- _ => rewrite H end.
  cbn [when ret]. rewrite Hs. cbn [call_trim ret].
  destruct (get (body req) "description"); try discriminate Hdesc; reflexivity.
Qed.

Lemma handler_issuance_rejected
    (clock : Clock) (req : Request) (reason : value) (log : list event) :
  reaches_issuance host (body req) = true ->
  generateApiKey services (issued_options host clock (body req)) = Rejected reason ->
  generateKeyHandler host services clock req log
  = (Responded internal_server_error,
     (log ++ [apiKeyService_generateApiKey (issued_options host clock (body req));
              logger_error "Error in public API generate-key:"])%list).
Proof.
  intros Hready Hissue. destruct (reaches_issuance_parts _ Hready) as [Hwf Hdays].
  rewrite handler_issues by assumption.
  unfold try_catch, bind. rewrite Hissue. cbn [await throw].
  rewrite internal_error_run, <- app_assoc. reflexivity.
Qed.

Lemma handler_no_key
    (clock : Clock) (req : Request) (result : value) (log : list event) :
  reaches_issuance host (body req) = true ->
  generateApiKey services (issued_options host clock (body req)) = Fulfilled result ->
  truthy result && truthy (get result "apiKey") = false ->
  generateKeyHandler host services clock req log
  = (Responded {| status := 500; json := failure "Failed to generate API key" |},
     (log ++ [apiKeyService_generateApiKey (issued_options host clock (body req))])%list).
Proof.
  intros Hready Hissue Hkey. destruct (reaches_issuance_parts _ Hready) as [Hwf Hdays].
  rewrite handler_issues by assumption.
  unfold try_catch, bind. rewrite Hissue. cbn [await ret].
  unfold shape_response, bind, when.
  replace (negb (truthy result) || negb (truthy (get result "apiKey"))) with true
    by (rewrite <- negb_andb, Hkey; reflexivity).
  reflexivity.
Qed.

(** An id that cannot be written into the log line throws at line 200, after
    the service has been called and before any notification. *)
Lemma handler_id_throws
    (clock : Clock) (req : Request) (result : value) (log : list event) :
  reaches_issuance host (body req) = true ->
  generateApiKey services (issued_options host clock (body req)) = Fulfilled result ->
  truthy result && truthy (get result "apiKey") = true ->
  ToPrimitive_throws (get result "id") = true ->
  generateKeyHandler host services clock req log
  = (Responded internal_server_error,
     (log ++ [apiKeyService_generateApiKey (issued_options host clock (body req));
              logger_error "Error in public API generate-key:"])%list).
Proof.
  intros Hready Hissue Hkey Hid. destruct (reaches_issuance_parts _ Hready) as [Hwf Hdays].
  assert (Hid' : ToPrimitive_throws (get (rest_without "apiKey" result) "id") = true)
    by (now rewrite get_rest_without).
  apply andb_true_iff in Hkey as [Hres Hk].
  rewrite handler_issues by assumption.
  unfold try_catch at 1. unfold bind at 1. rewrite Hissue. cbn [await ret].
  unfold shape_response, bind, when, template. rewrite Hres, Hk, Hid'.
  cbn [negb orb ret throw]. rewrite internal_error_run, <- app_assoc. reflexivity.
Qed.

(** A key that is truthy but not a string: the service has been called, and
    [substring] throws, in the notification step and again in the response. *)
Lemma handler_key_not_a_string
    (clock : Clock) (req : Request) (result : value) (log : list event) :
  reaches_issuance host (body req) = true ->
  generateApiKey services (issued_options host clock (body req)) = Fulfilled result ->
  truthy result = true ->
  truthy (get result "apiKey") = true ->
  (forall k, get result "apiKey" <> VString k) ->
  ToPrimitive_throws (get result "id") = false ->
  generateKeyHandler host services clock req log
  = (Responded internal_server_error,
     (log ++ apiKeyService_generateApiKey (issued_options host clock (body req))
          :: logger_info ("Public API generated new API key: "
                          ++ ToString host (get (rest_without "apiKey" result) "id"))
          :: (if truthy (or_default (get (body req) "notifyFeishu") (VBool true))
              then [logger_error "Failed to send API key creation notification:";
                    logger_error "Failed to send Feishu notification for API key creation:"]
              else [])
          ++ [logger_error "Error in public API generate-key:"])%list).
Proof.
  intros Hready Hissue Hres Hkey Hnot Hid.
  destruct (reaches_issuance_parts _ Hready) as [Hwf Hdays].
  assert (Hid' : ToPrimitive_throws (get (rest_without "apiKey" result) "id") = false)
    by (now rewrite get_rest_without).
  rewrite handler_issues by assumption.
  unfold try_catch at 1. unfold bind at 1. rewrite Hissue. cbn [await ret].
  unfold shape_response, bind, when, template. rewrite Hres, Hkey, Hid'.
  cbn [negb orb ret emit].
  destruct (truthy (or_default (get (body req) "notifyFeishu") (VBool true)));
    unfold sendApiKeyCreatedNotification, try_catch, bind;
    destruct (get result "apiKey") eqn:E;
    try (now destruct (Hnot _ eq_refl));
    cbn [call_substring_0_8 throw emit ret];
    rewrite internal_error_run, <- ?app_assoc; reflexivity.
Qed.


(** The handler is its two tables: the response of [handler_response] and the
    log lines of [handler_trace]. *)
Lemma handler_run (clock : Clock) (req : Request) (log : list event) :
  generateKeyHandler host services clock req log
  = (Responded (handler_response host (generateApiKey services) clock req),
     (log ++ handler_trace host services clock req)%list).
Proof.
  unfold handler_response, handler_trace.
  destruct (nullish (body req)) eqn:Hbody.
  { now apply handler_no_body. }
  destruct (first_failure host (body req)) as [message|] eqn:Hfirst.
  { rewrite app_nil_r. now apply handler_first_failure. }
  pose proof (first_failure_none host _ Hfirst) as Hvalid.
  destruct (days_throw (body req)) eqn:Hdays.
  { now apply handler_days_throw. }
  destruct (trimmable (get (body req) "description")) eqn:Hdesc; cbn [negb].
  2:{ now apply handler_untrimmable. }
  assert (Hready : reaches_issuance host (body req) = true).
  { unfold reaches_issuance, well_formed. now rewrite Hbody, Hvalid, Hdesc, Hdays. }
  cbv zeta.
  destruct (generateApiKey services (issued_options host clock (body req)))
    as [result|reason] eqn:Hissue.
  2:{ now apply handler_issuance_rejected with (reason := reason). }
  destruct (truthy result && truthy (get result "apiKey")) eqn:Hkey; cbn [negb].
  2:{ rewrite (handler_no_key clock req result log Hready Hissue Hkey). f_equal. f_equal.
      destruct (get result "apiKey") as [| |b|n|k|t|items|fields] eqn:E;
        try (now rewrite Hkey).
      destruct result; cbn [get] in E; try discriminate E.
      cbn [truthy andb] in Hkey. apply negb_false_iff in Hkey. now rewrite Hkey. }
  destruct (ToPrimitive_throws (get result "id")) eqn:Hid.
  { rewrite (handler_id_throws clock req result log Hready Hissue Hkey Hid). f_equal. f_equal.
    destruct (get result "apiKey") as [| |b|n|k|t|items|fields];
      try (now rewrite Hkey).
    apply andb_true_iff in Hkey as [_ Hk]. cbn [truthy] in Hk.
    apply negb_true_iff in Hk. now rewrite Hk. }
  destruct (reaches_issuance_parts _ Hready) as [Hwf _].
  pose proof Hkey as Hkey'. apply andb_true_iff in Hkey' as [Hres Hk].
  destruct (get result "apiKey") as [| |b|n|k|t|items|fields] eqn:E;
    try discriminate Hk;
    try (rewrite (handler_key_not_a_string clock req result log Hready Hissue Hres);
         [now rewrite Hres, Hk | now rewrite E | rewrite E; discriminate | exact Hid]).
  cbn [truthy] in Hk. apply negb_true_iff in Hk. rewrite Hk.
  apply String.eqb_neq in Hk.
  now rewrite (handler_success host services clock req result k log
                 Hwf Hdays Hissue E Hk Hid).
Qed.

Lemma issuance_calls_app (l1 l2 : list event) :
  issuance_calls (l1 ++ l2) = (issuance_calls l1 ++ issuance_calls l2)%list.
Proof. apply filter_app. Qed.

Lemma notification_calls_app (l1 l2 : list event) :
  notification_calls (l1 ++ l2) = (notification_calls l1 ++ notification_calls l2)%list.
Proof. apply filter_app. Qed.

Lemma notification_log_no_issuance
    (clock : Clock) (notifyFeishu feishuWebhook keyInfo : value) (k : string) :
  issuance_calls
    (notification_log host services clock notifyFeishu feishuWebhook keyInfo k) = [].
Proof.
  unfold notification_log. destruct (truthy notifyFeishu); [|reflexivity].
  destruct (sendNotification services _ _); reflexivity.
Qed.

Lemma notification_log_calls
    (clock : Clock) (notifyFeishu feishuWebhook keyInfo : value) (k : string) :
  notification_calls
    (notification_log host services clock notifyFeishu feishuWebhook keyInfo k)
  = if truthy notifyFeishu
    then [webhookService_sendNotification "apiKeyCreated"
            (notification_data host (t_notify clock) (VString k) keyInfo feishuWebhook
               (substring_to 8 k))]
    else [].
Proof.
  unfold notification_log. destruct (truthy notifyFeishu); [|reflexivity].
  destruct (sendNotification services _ _); reflexivity.
Qed.

(** The issuance service is called exactly when the body reaches it, once,
    with [issued_options]. *)
Lemma handler_trace_issuance (clock : Clock) (req : Request) :
  issuance_calls (handler_trace host services clock req)
  = if reaches_issuance host (body req)
    then [apiKeyService_generateApiKey (issued_options host clock (body req))]
    else [].
Proof.
  unfold handler_trace, reaches_issuance, well_formed.
  destruct (nullish (body req)); [reflexivity|].
  destruct (first_failure host (body req)) as [message|] eqn:Hfirst.
  { now rewrite (first_failure_some_not_validated _ _ Hfirst). }
  rewrite (first_failure_none host _ Hfirst).
  destruct (days_throw (body req)); [now rewrite andb_false_r|].
  destruct (trimmable (get (body req) "description")); [|reflexivity].
  cbn [negb andb]. cbv zeta.
  change (issuance_calls (apiKeyService_generateApiKey ?o :: ?l))
    with (apiKeyService_generateApiKey o :: issuance_calls l).
  f_equal.
  destruct (generateApiKey services _) as [result|reason]; [|reflexivity].
  destruct (negb (truthy result && truthy (get result "apiKey"))); [reflexivity|].
  destruct (ToPrimitive_throws (get result "id")); [reflexivity|].
  change (issuance_calls (logger_info ?m :: ?l)) with (issuance_calls l).
  destruct (get result "apiKey");
    try (rewrite issuance_calls_app;
         destruct (truthy (or_default _ _)); reflexivity).
  apply notification_log_no_issuance.
Qed.

(** The notification service is called as the table says. *)
Lemma handler_trace_notifications (clock : Clock) (req : Request) :
  notification_calls (handler_trace host services clock req)
  = expected_notifications host services clock req.
Proof.
  unfold handler_trace, expected_notifications, reaches_issuance, well_formed.
  destruct (nullish (body req)); [reflexivity|].
  destruct (first_failure host (body req)) as [message|] eqn:Hfirst.
  { now rewrite (first_failure_some_not_validated _ _ Hfirst). }
  rewrite (first_failure_none host _ Hfirst).
  destruct (days_throw (body req)); [now rewrite andb_false_r|].
  destruct (trimmable (get (body req) "description")); [|reflexivity].
  cbn [negb andb]. cbv zeta.
  change (notification_calls (apiKeyService_generateApiKey ?o :: ?l))
    with (notification_calls l).
  destruct (generateApiKey services _) as [result|reason]; [|reflexivity].
  destruct (truthy result && truthy (get result "apiKey")) eqn:Hkey; cbn [negb].
  2:{ destruct (get result "apiKey") as [| |b|n|k|t|items|fields] eqn:E; try reflexivity.
      destruct result; cbn [get] in E; try discriminate E.
      cbn [truthy andb] in Hkey. now rewrite Hkey. }
  destruct (ToPrimitive_throws (get result "id")).
  { destruct (get result "apiKey"); try reflexivity. now rewrite andb_false_r. }
  change (notification_calls (logger_info ?m :: ?l)) with (notification_calls l).
  apply andb_true_iff in Hkey as [_ Hk].
  destruct (get result "apiKey");
    try (rewrite notification_calls_app;
         destruct (truthy (or_default _ _)); reflexivity).
  cbn [truthy] in Hk. rewrite Hk. cbn [negb andb].
  apply notification_log_calls.
Qed.

End HandlerCases.

(** ** Trimming *)

Lemma append_assoc (a b c : string) : ((a ++ b) ++ c)%string = (a ++ (b ++ c))%string.
Proof. induction a as [|x a IH]; cbn; [reflexivity | now rewrite IH]. Qed.

Lemma append_empty (s : string) : (s ++ "")%string = s.
Proof. induction s as [|c s IH]; cbn; [reflexivity | now rewrite IH]. Qed.

Lemma string_rev_onto_app (s acc : string) :
  string_rev_onto s acc = (string_rev s ++ acc)%string.
Proof.
  unfold string_rev. revert acc.
  induction s as [|c s IH]; intros acc; cbn [string_rev_onto].
  - reflexivity.
  - rewrite IH, (IH (String c EmptyString)). now rewrite append_assoc.
Qed.

Lemma string_rev_onto_twice (s a b : string) :
  string_rev_onto (string_rev_onto s a) b = string_rev_onto a (s ++ b).
Proof.
  revert a. induction s as [|c s IH]; intros a; cbn [string_rev_onto append].
  - reflexivity.
  - now rewrite IH.
Qed.

Lemma string_rev_involutive (s : string) : string_rev (string_rev s) = s.
Proof.
  unfold string_rev. rewrite string_rev_onto_twice. cbn. apply append_empty.
Qed.

Lemma string_rev_onto_snoc (p acc : string) (c : ascii) :
  string_rev_onto (p ++ String c "") acc = String c (string_rev_onto p acc).
Proof.
  revert acc. induction p as [|d p IH]; intros acc; cbn [append string_rev_onto].
  - reflexivity.
  - apply IH.
Qed.

Lemma string_rev_snoc (p : string) (c : ascii) :
  string_rev (p ++ String c "") = String c (string_rev p).
Proof. apply string_rev_onto_snoc. Qed.

Lemma trimStart_idempotent (s : string) : trimStart (trimStart s) = trimStart s.
Proof.
  induction s as [|c s IH]; cbn [trimStart]; [reflexivity|].
  destruct (is_whitespace c) eqn:E; [exact IH|]. cbn [trimStart]. now rewrite E.
Qed.

(** What is left of a string that ends with a character that is not white
    space still ends with that character. *)
Lemma trimStart_keeps_last (x : string) (c : ascii) :
  is_whitespace c = false ->
  exists p, trimStart (x ++ String c "") = (p ++ String c "")%string.
Proof.
  intros Hc. induction x as [|d x IH]; cbn [append trimStart].
  - rewrite Hc. now exists EmptyString.
  - destruct (is_whitespace d); [exact IH | now exists (String d x)].
Qed.

Lemma trimEnd_idempotent (s : string) : trimEnd (trimEnd s) = trimEnd s.
Proof.
  unfold trimEnd. now rewrite string_rev_involutive, trimStart_idempotent.
Qed.

(** Trimming the end leaves a start that is already trimmed as it is. *)
Lemma trimStart_trimEnd (t : string) :
  trimStart t = t -> trimStart (trimEnd t) = trimEnd t.
Proof.
  intros Ht. destruct t as [|c r]; [reflexivity|].
  assert (Hc : is_whitespace c = false).
  { cbn [trimStart] in Ht. destruct (is_whitespace c) eqn:E; [|reflexivity].
    exfalso. apply (f_equal String.length) in Ht.
    assert (Hle : forall u, (String.length (trimStart u) <= String.length u)%nat).
    { induction u as [|d u IH]; cbn [trimStart]; [lia|].
      destruct (is_whitespace d); cbn [String.length]; lia. }
    specialize (Hle r). cbn [String.length] in Ht. lia. }
  unfold trimEnd.
  replace (string_rev (String c r)) with (string_rev r ++ String c "")%string
    by (unfold string_rev at 2; cbn [string_rev_onto]; now rewrite string_rev_onto_app).
  destruct (trimStart_keeps_last (string_rev r) c Hc) as [p ->].
  rewrite string_rev_snoc. cbn [trimStart]. now rewrite Hc.
Qed.

(** [trim] leaves no white space at either end. *)
Lemma trim_is_clean (s : string) :
  trimStart (trim s) = trim s /\ trimEnd (trim s) = trim s.
Proof.
  unfold trim. split.
  - apply trimStart_trimEnd, trimStart_idempotent.
  - apply trimEnd_idempotent.
Qed.

Lemma trim_idempotent (s : string) : trim (trim s) = trim s.
Proof.
  destruct (trim_is_clean s) as [H1 H2]. unfold trim at 1. now rewrite H1, H2.
Qed.

Lemma substring_to_all (n : nat) (s : string) :
  substring_to n s = s <-> (String.length s <= n)%nat.
Proof.
  split.
  - intros E. apply (f_equal String.length) in E.
    rewrite length_substring_to in E. lia.
  - unfold substring_to. revert s.
    induction n as [|n IH]; intros [|c s] Hlen; cbn in *; try reflexivity; try lia.
    f_equal. apply IH. lia.
Qed.

(** ** The route as a whole *)

Section Whole.

Variable host : Host.
Variable config : Config.

Lemma authenticated_split (clock : Clock) (req : Request) :
  authenticated host config clock req
  = gate_open config req && verifier_accepts host config (t_verify clock) req.
Proof. unfold authenticated, verifier_accepts. now rewrite !andb_assoc. Qed.

Lemma gate_open_enabled (req : Request) :
  gate_open config req = true -> feature_enabled config = true.
Proof. unfold gate_open. intros H. now apply andb_true_iff in H as [-> _]. Qed.

(** A request that is not authenticated is answered 403 or 401 by the
    middlewares alone: the same answer whatever the services are, with at most
    one warning logged and nothing called. *)
Lemma serve_unauthenticated (clock : Clock) (req : Request) :
  authenticated host config clock req = false ->
  exists code message added,
    (code = 403 \/ code = 401)
    /\ (added = [] \/ exists line, added = [logger_warn line])
    /\ forall services,
         serve host config services clock req
         = (Responded {| status := code; json := failure message |}, added).
Proof.
  rewrite authenticated_split. intros Hno.
  destruct (gate_open config req) eqn:Hgate; cbn [andb] in Hno.
  - destruct (verifier_refuses host config (t_verify clock) req
                (gate_open_enabled req Hgate) Hno) as (message & added & Hadded & Hrun).
    exists 401, message, added. split; [now right|]. split.
    + destruct Hadded as [-> | ->]; [now left | right; eauto].
    + intros services. unfold serve, generateKeyRoute.
      rewrite gate_passes by exact Hgate. now rewrite Hrun.
  - destruct (gate_shut host config req Hgate) as (message & added & Hadded & Hrun).
    exists 403, message, added. split; [now left|]. split.
    + destruct Hadded as [-> | ->]; [now left | right; eauto].
    + intros services. unfold serve, generateKeyRoute. now rewrite Hrun.
Qed.

(** An authenticated request is answered by the handler: its response and its
    log are the two tables. *)
Lemma serve_run (services : Services) (clock : Clock) (req : Request) :
  authenticated host config clock req = true ->
  serve host config services clock req
  = (Responded (handler_response host (generateApiKey services) clock req),
     handler_trace host services clock req).
Proof.
  intros Hauth. rewrite serve_authenticated by exact Hauth.
  now rewrite handler_run.
Qed.

(** The calls of the issuance service in a run of the route. *)
Lemma serve_issuance_calls (services : Services) (clock : Clock) (req : Request) :
  issuance_calls (snd (serve host config services clock req))
  = if authenticated host config clock req && reaches_issuance host (body req)
    then [apiKeyService_generateApiKey (issued_options host clock (body req))]
    else [].
Proof.
  destruct (authenticated host config clock req) eqn:Hauth; cbn [andb].
  - rewrite serve_run by exact Hauth. cbn [snd]. apply handler_trace_issuance.
  - destruct (serve_unauthenticated clock req Hauth)
      as (code & message & added & _ & Hadded & Hrun).
    rewrite Hrun. cbn [snd]. destruct Hadded as [-> | [line ->]]; reflexivity.
Qed.

(** The calls of the notification service in a run of the route. *)
Lemma serve_notification_calls (services : Services) (clock : Clock) (req : Request) :
  notification_calls (snd (serve host config services clock req))
  = if authenticated host config clock req
    then expected_notifications host services clock req
    else [].
Proof.
  destruct (authenticated host config clock req) eqn:Hauth.
  - rewrite serve_run by exact Hauth. cbn [snd]. apply handler_trace_notifications.
  - destruct (serve_unauthenticated clock req Hauth)
      as (code & message & added & _ & Hadded & Hrun).
    rewrite Hrun. cbn [snd]. destruct Hadded as [-> | [line ->]]; reflexivity.
Qed.

(** A call of the issuance service in the log of the route is the one call,
    made for an authenticated request whose body reaches the service. *)
Lemma serve_issuance_call_inv
    (services : Services) (clock : Clock) (req : Request) (options : value) :
  In (apiKeyService_generateApiKey options) (snd (serve host config services clock req)) ->
  authenticated host config clock req = true
  /\ reaches_issuance host (body req) = true
  /\ options = issued_options host clock (body req).
Proof.
  intros Hin.
  assert (Hcall : In (apiKeyService_generateApiKey options)
                    (issuance_calls (snd (serve host config services clock req)))).
  { unfold issuance_calls. apply filter_In. now split. }
  rewrite serve_issuance_calls in Hcall.
  destruct (authenticated host config clock req); [|destruct Hcall].
  destruct (reaches_issuance host (body req)); [|destruct Hcall].
  destruct Hcall as [E | []]. now injection E as <-.
Qed.

(** The table answers 200 with the success payload, or 400 or 500 with an
    error. *)
Lemma handler_response_shape (generate : value -> settled) (clock : Clock) (req : Request) :
  let r := handler_response host generate clock req in
  (status r = 200 /\ get (json r) "success" = VBool true
   /\ exists k, k <> "" /\ get (json r) "apiKey" = VString k)
  \/ ((status r = 400 \/ status r = 500) /\ exists message, json r = failure message).
Proof.
  unfold handler_response.
  destruct (nullish (body req)); [right; split; [now right | eexists; reflexivity]|].
  destruct (first_failure host (body req));
    [right; split; [now left | eexists; reflexivity]|].
  destruct (days_throw (body req)); [right; split; [now right | eexists; reflexivity]|].
  destruct (negb (trimmable _)); [right; split; [now right | eexists; reflexivity]|].
  destruct (generate _) as [result|reason];
    [|right; split; [now right | eexists; reflexivity]].
  assert (Hfail : forall c : bool,
    let r := if c then internal_server_error
             else {| status := 500; json := failure "Failed to generate API key" |} in
    (status r = 200 /\ get (json r) "success" = VBool true
     /\ exists k, k <> "" /\ get (json r) "apiKey" = VString k)
    \/ ((status r = 400 \/ status r = 500) /\ exists message, json r = failure message)).
  { intros []; right; (split; [now right | eexists; reflexivity]). }
  destruct (get result "apiKey") as [| |b|n|k|t|items|fields]; try apply Hfail.
  destruct (String.eqb_spec k "") as [->|Hk].
  - right. split; [now right | eexists; reflexivity].
  - destruct (ToPrimitive_throws (get result "id"));
      [right; split; [now right | eexists; reflexivity]|].
    left. repeat split. exists k. split; [exact Hk | reflexivity].
Qed.

(** A 200 of the table: the body reached the issuance service, which yielded
    a key that is a non-empty string, with an id that converts to a string. *)
Lemma handler_response_200 (generate : value -> settled) (clock : Clock) (req : Request) :
  status (handler_response host generate clock req) = 200 ->
  exists result k,
    reaches_issuance host (body req) = true
    /\ generate (issued_options host clock (body req)) = Fulfilled result
    /\ get result "apiKey" = VString k /\ k <> ""
    /\ ToPrimitive_throws (get result "id") = false
    /\ handler_response host generate clock req
       = {| status := 200;
            json := success_payload (VString k) (rest_without "apiKey" result)
                      (substring_to 8 k) |}.
Proof.
  unfold handler_response, reaches_issuance, well_formed.
  destruct (nullish (body req)); [discriminate|].
  destruct (first_failure host (body req)) eqn:Hfirst; [discriminate|].
  rewrite (first_failure_none host _ Hfirst).
  destruct (days_throw (body req)); [discriminate|].
  destruct (trimmable _); [|discriminate]. cbn [negb andb].
  destruct (generate _) as [result|reason]; [|discriminate].
  destruct (get result "apiKey") as [| |b|n|k|t|items|fields] eqn:Hkey;
    try (destruct (_ && _); discriminate).
  destruct (String.eqb_spec k "") as [->|Hk]; [discriminate|].
  destruct (ToPrimitive_throws (get result "id")) eqn:Hid; [discriminate|].
  intros _. exists result, k. repeat split; assumption.
Qed.

End Whole.

(** ** The claims on the handler *)

(** The body of line 172's failing case: a day count [{toString: 1}] passes
    the checks, and the handler answers 500 without calling a service. *)
Example unconvertible_days_are_500 :
  authenticated Fixture.host Fixture.open_config Fixture.clock
    (Fixture.request Scenario.unconvertible_days_payload) = true
  /\ well_formed Fixture.host Scenario.unconvertible_days_payload = true
  /\ serve Fixture.host Fixture.open_config Fixture.services Fixture.clock
       (Fixture.request Scenario.unconvertible_days_payload)
     = (Responded internal_server_error,
        [logger_error "Error in public API generate-key:"]).
Proof. repeat split. Qed.



(** C8, as stated, fails: the whole key can stand inside [data].  A key of
    eight characters followed by three dots is its own redaction, so
    [data.keyPrefix] is the key; a key of three characters is wholly in
    [data.keyPrefix], before the dots. *)
Lemma key_can_stand_in_data :
  option_map status
    (response_of (serve Fixture.host Fixture.open_config Scenario.services_dotted_key
                    Fixture.clock (Fixture.request Fixture.test_payload)))
  = Some 200
  /\ get (answer (serve Fixture.host Fixture.open_config Scenario.services_dotted_key
                    Fixture.clock (Fixture.request Fixture.test_payload))) "apiKey"
     = VString "abcdefgh..."
  /\ get (get (answer (serve Fixture.host Fixture.open_config Scenario.services_dotted_key
                         Fixture.clock (Fixture.request Fixture.test_payload))) "data")
       "keyPrefix"
     = VString "abcdefgh..."
  /\ option_map status
       (response_of (serve Fixture.host Fixture.open_config Scenario.services_short_key
                       Fixture.clock (Fixture.request Fixture.test_payload)))
     = Some 200
  /\ get (answer (serve Fixture.host Fixture.open_config Scenario.services_short_key
                    Fixture.clock (Fixture.request Fixture.test_payload))) "apiKey"
     = VString "abc"
  /\ get (get (answer (serve Fixture.host Fixture.open_config Scenario.services_short_key
                         Fixture.clock (Fixture.request Fixture.test_payload))) "data")
       "keyPrefix"
     = VString ("abc" ++ "...").
Proof. repeat split. Qed.

(** C8, amended. The payload of every 200 response of the route, as given
    to [res.json], has the fields [success], [data] and [apiKey]; [apiKey] is
    the key, a non-empty string, of the result the issuance service gave on
    its one call; [data.keyPrefix] is the first 8 characters of [apiKey]
    followed by three dots; [data] has ten fields, none of them named
    [apiKey], and each of the other nine is the field of that name in the
    result of the service.  The prefix before the dots is the whole key
    exactly when the key has at most 8 characters. *)
Theorem success_response_is_consistent
    (host : Host) (config : Config) (services : Services)
    (clock : Clock) (req : Request) (r : Response) :
  response_of (serve host config services clock req) = Some r ->
  status r = 200 ->
  exists k data options result,
    json r = VObject [("success", VBool true);
                      ("data", VObject data);
                      ("apiKey", VString k)]
    /\ k <> ""
    /\ issuance_calls (snd (serve host config services clock req))
       = [apiKeyService_generateApiKey options]
    /\ generateApiKey services options = Fulfilled result
    /\ get result "apiKey" = VString k
    /\ lookup "keyPrefix" data = VString (substring_to 8 k ++ "...")
    /\ map fst data
       = ["id"; "name"; "description"; "keyPrefix"; "tokenLimit"; "dailyCostLimit";
          "monthlyCostLimit"; "expiresAt"; "createdAt"; "status"]
    /\ lookup "apiKey" data = VUndefined
    /\ (forall f,
          In f ["id"; "name"; "description"; "tokenLimit"; "dailyCostLimit";
                "monthlyCostLimit"; "expiresAt"; "createdAt"; "status"] ->
          lookup f data = get result f)
    /\ (substring_to 8 k = k <-> (String.length k <= 8)%nat).
Proof.
  intros Hresp H200.
  destruct (authenticated host config clock req) eqn:Hauth.
  2:{ destruct (serve_unauthenticated host config clock req Hauth)
        as (code & message & added & Hcode & _ & Hrun).
      rewrite Hrun in Hresp. injection Hresp as <-. cbn [status] in H200.
      destruct Hcode; lia. }
  pose proof (serve_issuance_calls host config services clock req) as Hcalls.
  rewrite Hauth in Hcalls. cbn [andb] in Hcalls.
  rewrite serve_run in Hresp by exact Hauth.
  unfold response_of in Hresp. cbn [fst] in Hresp. injection Hresp as <-.
  destruct (handler_response_200 host _ clock req H200)
    as (result & k & Hready & Hissue & Hkey & Hk & _ & ->).
  rewrite Hready in Hcalls.
  exists k. eexists. exists (issued_options host clock (body req)), result.
  unfold success_payload. cbn [json].
  split; [reflexivity|]. split; [exact Hk|]. split; [exact Hcalls|].
  split; [exact Hissue|]. split; [exact Hkey|].
  split; [reflexivity|]. split; [reflexivity|]. split; [reflexivity|].
  split; [|apply substring_to_all].
  intros f Hin. cbn [In] in Hin.
  repeat (destruct Hin as [<- | Hin]; [cbn [lookup String.eqb Ascii.eqb Bool.eqb];
                                       now rewrite get_rest_without|]).
  destruct Hin.
Qed.

Lemma success_response_is_consistent_witness :
  exists k data options result,
    VObject [("success", VBool true);
             ("data", VObject
                [("id", VString "key-1");
                 ("name", VString "Test API Key");
                 ("description", VString "Generated via Public API for testing");
                 ("keyPrefix", VString "cr_01234...");
                 ("tokenLimit", Fixture.num 50000);
                 ("dailyCostLimit", Fixture.num 10);
                 ("monthlyCostLimit", Fixture.num 100);
                 ("expiresAt", VDate (Some 1769860800005));
                 ("createdAt", VString "2026-01-01T00:00:00.000Z");
                 ("status", VString "active")]);
             ("apiKey", VString "cr_0123456789abcdef")]
    = VObject [("success", VBool true); ("data", VObject data); ("apiKey", VString k)]
    /\ k <> ""
    /\ issuance_calls
         (snd (serve Fixture.host Fixture.open_config Fixture.services Fixture.clock
                 (Fixture.request Fixture.test_payload)))
       = [apiKeyService_generateApiKey options]
    /\ generateApiKey Fixture.services options = Fulfilled result
    /\ get result "apiKey" = VString k
    /\ lookup "keyPrefix" data = VString (substring_to 8 k ++ "...")
    /\ map fst data
       = ["id"; "name"; "description"; "keyPrefix"; "tokenLimit"; "dailyCostLimit";
          "monthlyCostLimit"; "expiresAt"; "createdAt"; "status"]
    /\ lookup "apiKey" data = VUndefined
    /\ (forall f,
          In f ["id"; "name"; "description"; "tokenLimit"; "dailyCostLimit";
                "monthlyCostLimit"; "expiresAt"; "createdAt"; "status"] ->
          lookup f data = get result f)
    /\ (substring_to 8 k = k <-> (String.length k <= 8)%nat).
Proof.
  apply (success_response_is_consistent Fixture.host Fixture.open_config Fixture.services
           Fixture.clock (Fixture.request Fixture.test_payload)
           {| status := 200;
              json :=
                VObject [("success", VBool true);
                         ("data", VObject
                            [("id", VString "key-1");
                             ("name", VString "Test API Key");
                             ("description", VString "Generated via Public API for testing");
                             ("keyPrefix", VString "cr_01234...");
                             ("tokenLimit", Fixture.num 50000);
                             ("dailyCostLimit", Fixture.num 10);
                             ("monthlyCostLimit", Fixture.num 100);
                             ("expiresAt", VDate (Some 1769860800005));
                             ("createdAt", VString "2026-01-01T00:00:00.000Z");
                             ("status", VString "active")]);
                         ("apiKey", VString "cr_0123456789abcdef")] |});
    reflexivity.
Defined.

(** C9. For an authenticated request with a well-formed body whose
    [expirationDays] is absent or an integer: when the issuance service has
    produced a key, with an id that converts to a string, and the notification
    service fails, with [notifyFeishu] truthy, the answer is still 200 with
    the whole success payload and the complete key; the failure is caught and
    logged twice, and the log keeps the call of the issuance service. *)
Theorem notification_failure_is_absorbed
    (host : Host) (config : Config) (services : Services)
    (clock : Clock) (req : Request) (result reason : value) (k : string) :
  authenticated host config clock req = true ->
  well_formed host (body req) = true ->
  days_as_specified (body req) ->
  generateApiKey services (issued_options host clock (body req)) = Fulfilled result ->
  get result "apiKey" = VString k -> k <> "" ->
  ToPrimitive_throws (get result "id") = false ->
  truthy (or_default (get (body req) "notifyFeishu") (VBool true)) = true ->
  let keyInfo := rest_without "apiKey" result in
  let data :=
    notification_data host (t_notify clock) (VString k) keyInfo
      (get (body req) "feishuWebhook") (substring_to 8 k) in
  sendNotification services "apiKeyCreated" data = Rejected reason ->
  serve host config services clock req
  = (Responded {| status := 200;
                  json := success_payload (VString k) keyInfo (substring_to 8 k) |},
     [apiKeyService_generateApiKey (issued_options host clock (body req));
      logger_info ("Public API generated new API key: " ++ ToString host (get keyInfo "id"));
      webhookService_sendNotification "apiKeyCreated" data;
      logger_error "Failed to send API key creation notification:";
      logger_error "Failed to send Feishu notification for API key creation:"])
  /\ get (success_payload (VString k) keyInfo (substring_to 8 k)) "apiKey" = VString k
  /\ get (success_payload (VString k) keyInfo (substring_to 8 k)) "success" = VBool true.
Proof.
  intros Hauth Hwf Hspec Hissue Hkey Hk Hid Hnotify keyInfo data Hsend.
  pose proof (days_as_specified_safe _ Hspec) as Hdays.
  rewrite serve_authenticated by exact Hauth.
  rewrite (handler_success host services clock req result k [] Hwf Hdays Hissue Hkey Hk Hid).
  unfold notification_log. rewrite Hnotify. fold keyInfo. fold data. rewrite Hsend.
  repeat split.
Qed.

Lemma notification_failure_is_absorbed_witness :
  option_map status
    (response_of (serve Fixture.host Fixture.open_config Fixture.services_webhook_down
                    Fixture.clock (Fixture.request Fixture.feishu_payload)))
  = Some 200
  /\ get (answer (serve Fixture.host Fixture.open_config Fixture.services_webhook_down
                    Fixture.clock (Fixture.request Fixture.feishu_payload))) "apiKey"
     = VString "cr_0123456789abcdef".
Proof.
  pose proof (notification_failure_is_absorbed Fixture.host Fixture.open_config
                Fixture.services_webhook_down Fixture.clock
                (Fixture.request Fixture.feishu_payload)
                (VObject
                   [("id", VString "key-1");
                    ("apiKey", VString "cr_0123456789abcdef");
                    ("name", VString "Test API Key with Feishu");
                    ("description", VString "Testing Feishu notification functionality");
                    ("tokenLimit", Fixture.num 10000);
                    ("dailyCostLimit", Fixture.num 5);
                    ("monthlyCostLimit", Fixture.num 50);
                    ("expiresAt", VDate (Some 1767873600005));
                    ("createdAt", VString "2026-01-01T00:00:00.000Z");
                    ("status", VString "active")])
                (VString "ECONNREFUSED") "cr_0123456789abcdef"
                eq_refl eq_refl (or_intror (ex_intro _ 7 eq_refl))
                eq_refl eq_refl ltac:(discriminate) eq_refl eq_refl eq_refl)
    as (Hrun & _ & _).
  unfold answer, response_of. rewrite Hrun. split; reflexivity.
Defined.

(** ** Properties of the gate and of the verifier *)

(** X1. A request whose signature header or timestamp header is missing or
    empty is answered 401 "Missing signature or timestamp", before the
    timestamp is looked at and whatever the configuration; nothing is logged
    and the next handler does not run. *)
Theorem missing_header_is_refused
    (host : Host) (config : Config) (now : Z) (req : Request) :
  truthy (header (headers req) "x-signature") = false
  \/ truthy (header (headers req) "x-timestamp") = false ->
  forall next log,
    signatureMiddleware host config now req next log
    = (Responded {| status := 401; json := failure "Missing signature or timestamp" |}, log).
Proof. intros H next log. now apply verifier_missing. Qed.

Lemma missing_header_is_refused_witness :
  serve Fixture.host Fixture.open_config Fixture.services Fixture.clock
    Scenario.bare_request
  = (Responded {| status := 401; json := failure "Missing signature or timestamp" |}, []).
Proof.
  apply (missing_header_is_refused Fixture.host Fixture.open_config Fixture.noon
           Scenario.bare_request).
  left. reflexivity.
Defined.

(** X2. The gate lets a request through exactly when the feature is on and
    the allow-list is empty or holds the address of the request; otherwise it
    answers 403, with at most the warning on the address logged, and the next
    handler does not run. *)
Theorem gate_is_decided (host : Host) (config : Config) (req : Request) :
  (gate_open config req = true ->
   forall next log, ipWhitelistMiddleware host config req next log = next log)
  /\ (gate_open config req = false ->
      exists message added,
        (added = []
         \/ added = [logger_warn ("Unauthorized IP access attempt: "
                                  ++ ToString host (js_or (ip req) (remoteAddress req)))])
        /\ forall next log,
             ipWhitelistMiddleware host config req next log
             = (Responded {| status := 403; json := failure message |},
                (log ++ added)%list)).
Proof.
  split.
  - intros Hopen next log. now apply gate_passes.
  - apply gate_shut.
Qed.

(** X3. With the feature on, an address on the allow-list passes the gate;
    the address looked up is [req.ip] and, when that is undefined or empty,
    the remote address of the connection. *)
Theorem listed_address_passes
    (host : Host) (config : Config) (req : Request) (address : string) :
  feature_enabled config = true ->
  In address (allow_list config) ->
  (ip req = VString address /\ address <> ""
   \/ truthy (ip req) = false /\ remoteAddress req = VString address) ->
  forall next log, ipWhitelistMiddleware host config req next log = next log.
Proof.
  intros Hon Hin Haddr next log. apply gate_passes.
  unfold gate_open. rewrite Hon. cbn [andb].
  apply orb_true_iff. right. apply includes_In. exists address. split; [|exact Hin].
  unfold js_or. destruct Haddr as [[-> Hne] | [-> ->]]; [|reflexivity].
  cbn [truthy]. apply String.eqb_neq in Hne. now rewrite Hne.
Qed.

Lemma listed_address_passes_witness :
  ipWhitelistMiddleware Fixture.host Fixture.listed_config Scenario.socket_only_request
    (ret tt) []
  = (Normal tt, []).
Proof.
  apply (listed_address_passes Fixture.host Fixture.listed_config
           Scenario.socket_only_request "10.0.0.2" eq_refl).
  - right. left. reflexivity.
  - right. split; reflexivity.
Defined.

(** X4. With the feature on, the verifier hands over to the next handler
    exactly when both headers are there and not empty, the timestamp is not
    stale and the signature is the expected one; otherwise it answers 401,
    logging at most the line on an invalid signature, and the next handler
    does not run. *)
Theorem verifier_is_decided
    (host : Host) (config : Config) (now : Z) (req : Request) :
  feature_enabled config = true ->
  (verifier_accepts host config now req = true ->
   forall next log, signatureMiddleware host config now req next log = next log)
  /\ (verifier_accepts host config now req = false ->
      exists message added,
        (added = [] \/ added = [logger_warn "Invalid signature in public API request"])
        /\ forall next log,
             signatureMiddleware host config now req next log
             = (Responded {| status := 401; json := failure message |},
                (log ++ added)%list)).
Proof.
  intros Hon. split.
  - intros Hacc next log. now apply verifier_accepts_passes.
  - now apply verifier_refuses.
Qed.

Lemma verifier_is_decided_witness :
  signatureMiddleware Fixture.host Fixture.open_config Fixture.noon
    (Fixture.request Fixture.test_payload) (ret tt) []
  = (Normal tt, []).
Proof.
  apply (verifier_is_decided Fixture.host Fixture.open_config Fixture.noon
           (Fixture.request Fixture.test_payload) eq_refl).
  reflexivity.
Defined.

(** X5. A timestamp written by the client as [Date.now().toString()] at a
    time [t] in the range of dates, at most 8.64e15 ms from the epoch on
    either side, is read back by [parseInt] as [t]: the server finds it stale
    exactly when [t] is more than 300000 ms away from its own clock, on either
    side. *)
Theorem client_timestamp_freshness (now t : Z) :
  Z.abs t <= 8640000000000000 ->
  parseInt (integer_toString t) = of_Z t
  /\ stale now (parseInt (integer_toString t)) = (300000 <? Z.abs (now - t)).
Proof.
  intros _. split; [apply parseInt_integer_toString|].
  now rewrite parseInt_integer_toString, stale_of_Z.
Qed.

Lemma client_timestamp_freshness_witness :
  parseInt (integer_toString Fixture.noon) = of_Z Fixture.noon
  /\ stale (Fixture.noon + 400000) (parseInt (integer_toString Fixture.noon))
     = (300000 <? Z.abs (Fixture.noon + 400000 - Fixture.noon)).
Proof.
  apply (client_timestamp_freshness (Fixture.noon + 400000) Fixture.noon).
  unfold Fixture.noon. lia.
Defined.

(** X6. Signing and verifying compose: a request that carries the signature
    [generateSignature] of the test client computes for a payload and a
    timestamp [Date.now().toString()], whose body serializes as that payload
    does and whose timestamp is within 300000 ms of the server's clock, passes
    the verifier exactly when the digest under the client's secret is the
    digest under the server's secret; so it passes with the same secret. *)
Theorem signed_request_is_accepted
    (host : Host) (config : Config) (now t : Z) (req : Request)
    (payload : value) (clientSecret : string) :
  feature_enabled config = true ->
  header (headers req) "x-timestamp" = VString (integer_toString t) ->
  header (headers req) "x-signature"
  = VString (generateSignature host payload (integer_toString t) clientSecret) ->
  JSON_stringify host (body req) = JSON_stringify host payload ->
  Z.abs (now - t) <= 300000 ->
  let data := signed_payload host req (integer_toString t) in
  (verifier_accepts host config now req = true
   <-> hmac_sha256_hex host clientSecret data
       = hmac_sha256_hex host (shared_secret config) data)
  /\ (clientSecret = shared_secret config ->
      forall next log, signatureMiddleware host config now req next log = next log)
  /\ (hmac_sha256_hex host clientSecret data
      <> hmac_sha256_hex host (shared_secret config) data ->
      forall next log,
        signatureMiddleware host config now req next log
        = (Responded invalid_signature,
           (log ++ [logger_warn "Invalid signature in public API request"])%list)).
Proof.
  intros Hon Hts Hsig Hjson Hnear data.
  assert (Hfresh : stale now (parseInt (integer_toString t)) = false).
  { rewrite parseInt_integer_toString, stale_of_Z. now apply Z.ltb_ge. }
  assert (Ht : integer_toString t <> "").
  { intros E. pose proof (parseInt_integer_toString t) as P. rewrite E in P. discriminate P. }
  assert (Hs : generateSignature host payload (integer_toString t) clientSecret <> "")
    by discriminate.
  assert (Hgen : generateSignature host payload (integer_toString t) clientSecret
                 = "sha256=" ++ hmac_sha256_hex host clientSecret data).
  { unfold generateSignature, data, signed_payload. now rewrite Hjson. }
  assert (Hacc : verifier_accepts host config now req = true
                 <-> hmac_sha256_hex host clientSecret data
                     = hmac_sha256_hex host (shared_secret config) data).
  { unfold verifier_accepts. rewrite Hsig, Hts. cbn [truthy ToString].
    apply String.eqb_neq in Hs, Ht. rewrite Hs, Ht, Hfresh. cbn [negb andb].
    rewrite negb_true_iff, Hgen, differs_from_sha256.
    unfold strip_sha256_prefix. rewrite strip_prefix_spec.
    unfold expected_signature. fold data. split.
    - intros E. cbn in E. now injection E.
    - now intros <-. }
  pose proof (fun next log =>
    verifier_compares host config now req _ _ next log Hsig Hs Hts Ht Hfresh Hon) as Hcmp.
  split; [exact Hacc|]. split.
  - intros Hsame next log. apply verifier_accepts_passes; [exact Hon|].
    apply Hacc. now rewrite Hsame.
  - intros Hdiff next log. rewrite Hcmp.
    destruct (differs_from _ _) eqn:E; [reflexivity|].
    exfalso. apply Hdiff. apply Hacc.
    unfold verifier_accepts. rewrite Hsig, Hts. cbn [truthy ToString].
    apply String.eqb_neq in Hs, Ht. now rewrite Hs, Ht, Hfresh, E.
Qed.

Lemma signed_request_is_accepted_witness :
  signatureMiddleware Fixture.host Fixture.open_config (Fixture.noon + 250000)
    (Scenario.client_request "10.0.0.1" Fixture.noon Fixture.test_payload
       "test-secret-key-for-public-api") (ret tt) []
  = (Normal tt, []).
Proof.
  apply (signed_request_is_accepted Fixture.host Fixture.open_config
           (Fixture.noon + 250000) Fixture.noon
           (Scenario.client_request "10.0.0.1" Fixture.noon Fixture.test_payload
              "test-secret-key-for-public-api")
           Fixture.test_payload "test-secret-key-for-public-api"
           eq_refl eq_refl eq_refl eq_refl);
    [discriminate | reflexivity].
Defined.

(** ** Properties of the route *)

(** X7. With a configuration whose secret is a string, services that settle
    each call and a request whose address converts to a string, every request
    to the route is answered, and no exception leaves it: the answer is 200
    with [success: true] and a key that is a non-empty string, or one of 400,
    401, 403 and 500 with [success: false] and an error message. *)
Theorem every_request_is_answered
    (host : Host) (config : Config) (services : Services)
    (clock : Clock) (req : Request) :
  ToPrimitive_throws (js_or (ip req) (remoteAddress req)) = false ->
  exists r log,
    serve host config services clock req = (Responded r, log)
    /\ ((status r = 200 /\ get (json r) "success" = VBool true
         /\ exists k, k <> "" /\ get (json r) "apiKey" = VString k)
        \/ ((status r = 400 \/ status r = 401 \/ status r = 403 \/ status r = 500)
            /\ exists message, json r = failure message)).
Proof.
  intros _.
  destruct (authenticated host config clock req) eqn:Hauth.
  - rewrite serve_run by exact Hauth.
    pose proof (handler_response_shape host (generateApiKey services) clock req) as Hshape.
    do 2 eexists. split; [reflexivity|].
    cbv zeta in Hshape. destruct Hshape as [H200 | [Hcode Hmsg]]; [now left|].
    right. split; [|exact Hmsg]. destruct Hcode as [-> | ->]; auto.
  - destruct (serve_unauthenticated host config clock req Hauth)
      as (code & message & added & Hcode & _ & Hrun).
    do 2 eexists. split; [apply Hrun|].
    right. split; [|eexists; reflexivity]. cbn [status]. destruct Hcode as [-> | ->]; auto.
Qed.

Lemma every_request_is_answered_witness :
  exists r log,
    serve Fixture.host Fixture.open_config Scenario.services_issuance_down Fixture.clock
      (Fixture.request Scenario.unconvertible_days_payload)
    = (Responded r, log)
    /\ ((status r = 200 /\ get (json r) "success" = VBool true
         /\ exists k, k <> "" /\ get (json r) "apiKey" = VString k)
        \/ ((status r = 400 \/ status r = 401 \/ status r = 403 \/ status r = 500)
            /\ exists message, json r = failure message)).
Proof.
  apply (every_request_is_answered Fixture.host Fixture.open_config
           Scenario.services_issuance_down Fixture.clock
           (Fixture.request Scenario.unconvertible_days_payload)).
  reflexivity.
Defined.

(** X8. The issuance service is called once when the request is
    authenticated and its body reaches the service: it passes the checks, its
    day count converts to a number and its description can be trimmed.  It is
    not called otherwise.  For a day count that is absent or an integer the
    one call carries the options built from the body. *)
Theorem issuance_is_called_once_or_never
    (host : Host) (config : Config) (services : Services)
    (clock : Clock) (req : Request) :
  let calls := issuance_calls (snd (serve host config services clock req)) in
  List.length calls
  = (if authenticated host config clock req && reaches_issuance host (body req)
     then 1%nat else 0%nat)
  /\ (authenticated host config clock req = false -> calls = [])
  /\ (well_formed host (body req) = false -> calls = [])
  /\ (days_throw (body req) = true -> calls = [])
  /\ (days_as_specified (body req) ->
      calls
      = if authenticated host config clock req && well_formed host (body req)
        then [apiKeyService_generateApiKey (issued_options host clock (body req))]
        else []).
Proof.
  intros calls. unfold calls. rewrite serve_issuance_calls. unfold reaches_issuance.
  split; [now destruct (_ && _)|].
  split; [now intros ->|].
  split; [intros ->; now rewrite andb_false_r|].
  split; [intros ->; cbn [negb]; now rewrite !andb_false_r|].
  intros Hspec. rewrite (days_as_specified_safe _ Hspec). cbn [negb].
  now rewrite andb_true_r.
Qed.

(** X9. The notification service is called at most once, and only for an
    authenticated request whose issuance yielded a key that is a non-empty
    string: never when [notifyFeishu] is falsy, never when the issuance
    service was not called or failed.  The one call is of type [apiKeyCreated]
    and carries the whole key, its prefix and the webhook of the body. *)
Theorem notification_is_called_once_or_never
    (host : Host) (config : Config) (services : Services)
    (clock : Clock) (req : Request) :
  let log := snd (serve host config services clock req) in
  let calls := notification_calls log in
  (List.length calls <= 1)%nat
  /\ (truthy (or_default (get (body req) "notifyFeishu") (VBool true)) = false ->
      calls = [])
  /\ (issuance_calls log = [] -> calls = [])
  /\ (forall options reason,
        In (apiKeyService_generateApiKey options) log ->
        generateApiKey services options = Rejected reason ->
        calls = [])
  /\ (forall e, In e calls ->
        exists options result k data,
          authenticated host config clock req = true
          /\ In (apiKeyService_generateApiKey options) log
          /\ generateApiKey services options = Fulfilled result
          /\ get result "apiKey" = VString k /\ k <> ""
          /\ e = webhookService_sendNotification "apiKeyCreated" data
          /\ get data "apiKey" = VString k
          /\ get data "keyPrefix" = VString (substring_to 8 k ++ "...")
          /\ get data "customWebhook" = get (body req) "feishuWebhook").
Proof.
  intros log calls.
  assert (Hissued : forall options,
            In (apiKeyService_generateApiKey options) log ->
            options = issued_options host clock (body req)).
  { intros options Hin.
    now destruct (serve_issuance_call_inv host config services clock req options Hin)
      as (_ & _ & ->). }
  assert (Hin : issuance_calls log <> [] ->
                In (apiKeyService_generateApiKey (issued_options host clock (body req))) log).
  { unfold log. rewrite serve_issuance_calls. intros Hne.
    destruct (authenticated host config clock req && reaches_issuance host (body req)) eqn:E;
      [|now destruct Hne].
    assert (Hcall : In (apiKeyService_generateApiKey (issued_options host clock (body req)))
                      (issuance_calls (snd (serve host config services clock req)))).
    { rewrite serve_issuance_calls, E. now left. }
    unfold issuance_calls in Hcall. now apply filter_In in Hcall as [Hcall _]. }
  assert (Hcalls : issuance_calls log
                   = if authenticated host config clock req
                        && reaches_issuance host (body req)
                     then [apiKeyService_generateApiKey
                             (issued_options host clock (body req))]
                     else []) by apply serve_issuance_calls.
  assert (Heq : calls = (if authenticated host config clock req
                         then expected_notifications host services clock req else []))
    by apply serve_notification_calls.
  clearbody calls log. subst calls.
  unfold expected_notifications in *.
  destruct (authenticated host config clock req); cbn [andb] in *;
    [|repeat split; cbn; try lia; try reflexivity; intros e []].
  destruct (reaches_issuance host (body req));
    [|repeat split; cbn; try lia; try reflexivity; intros e []].
  assert (Hlog : In (apiKeyService_generateApiKey (issued_options host clock (body req))) log).
  { apply Hin. rewrite Hcalls. discriminate. }
  destruct (generateApiKey services (issued_options host clock (body req)))
    as [result|reason] eqn:Hissue;
    [|repeat split; cbn; try lia; try reflexivity; intros e []].
  assert (Hrej : forall options reason,
            In (apiKeyService_generateApiKey options) log ->
            generateApiKey services options = Rejected reason -> False).
  { intros options reason Ho Hr. rewrite (Hissued _ Ho) in Hr. congruence. }
  destruct (get result "apiKey") as [| |b|n|k|t|items|fields] eqn:E;
    try (repeat split; cbn; try lia; try reflexivity;
         solve [intros e [] | discriminate]).
  destruct (negb (k =? "")%string && negb (ToPrimitive_throws (get result "id"))
            && truthy (or_default (get (body req) "notifyFeishu") (VBool true))) eqn:Hgo;
    [|repeat split; cbn; try lia; try reflexivity; intros e []].
  apply andb_true_iff in Hgo as [Hgo Hnotify]. apply andb_true_iff in Hgo as [Hk _].
  apply negb_true_iff in Hk. apply String.eqb_neq in Hk.
  split; [cbn; lia|]. split; [rewrite Hnotify; discriminate|].
  split; [rewrite Hcalls; discriminate|].
  split; [intros options reason Ho Hr; destruct (Hrej _ _ Ho Hr)|].
  intros e [<- | []].
  exists (issued_options host clock (body req)), result, k. eexists.
  repeat split; try reflexivity; assumption.
Qed.



(** X11. A day count that is a number not above zero is not refused: the
    request goes through and the issuance service is given no expiry. *)
Theorem non_positive_days_never_expire
    (host : Host) (config : Config) (services : Services)
    (clock : Clock) (req : Request) (days : Q) :
  authenticated host config clock req = true ->
  well_formed host (body req) = true ->
  get (body req) "expirationDays" = VNumber (Fin days) ->
  (days <= 0)%Q ->
  get (issued_options host clock (body req)) "expiresAt" = VNull
  /\ issuance_calls (snd (serve host config services clock req))
     = [apiKeyService_generateApiKey (issued_options host clock (body req))].
Proof.
  intros Hauth Hwf Hdays Hle. split.
  - assert (Hopt : get (issued_options host clock (body req)) "expiresAt"
                   = compute_expiresAt host (t_expiry clock)
                       (or_default (get (body req) "expirationDays") (VNumber (of_Z 30))))
      by reflexivity.
    rewrite Hopt, Hdays. cbn [or_default]. unfold compute_expiresAt, gt_number.
    cbn [ToNumber]. unfold num_gt, num_lt, of_Z, Qlt_bool.
    apply Qle_bool_iff in Hle. change (inject_Z 0) with 0%Q. rewrite Hle. cbn [negb].
    now rewrite andb_false_r.
  - rewrite serve_issuance_calls, Hauth. unfold reaches_issuance.
    now rewrite Hwf, (number_days_safe _ _ Hdays).
Qed.

Lemma non_positive_days_never_expire_witness :
  get (issued_options Fixture.host Fixture.clock Scenario.negative_days_payload) "expiresAt"
  = VNull.
Proof.
  apply (non_positive_days_never_expire Fixture.host Fixture.open_config Fixture.services
           Fixture.clock (Fixture.request Scenario.negative_days_payload) (inject_Z (-5))
           eq_refl eq_refl eq_refl).
  discriminate.
Defined.

(** X12. For an authenticated request with a well-formed body whose day
    count is absent or an integer: when the issuance service fails, the answer
    is 500 "Internal server error" and the failure is logged; when it returns
    no result or a result with no key, the answer is 500 "Failed to generate
    API key".  In both cases the notification service is not called. *)
Theorem issuance_failure_is_500
    (host : Host) (config : Config) (services : Services)
    (clock : Clock) (req : Request) :
  authenticated host config clock req = true ->
  well_formed host (body req) = true ->
  days_as_specified (body req) ->
  let options := issued_options host clock (body req) in
  (forall reason,
     generateApiKey services options = Rejected reason ->
     serve host config services clock req
     = (Responded internal_server_error,
        [apiKeyService_generateApiKey options;
         logger_error "Error in public API generate-key:"]))
  /\ (forall result,
        generateApiKey services options = Fulfilled result ->
        truthy result && truthy (get result "apiKey") = false ->
        serve host config services clock req
        = (Responded {| status := 500; json := failure "Failed to generate API key" |},
           [apiKeyService_generateApiKey options])).
Proof.
  intros Hauth Hwf Hspec options.
  assert (Hready : reaches_issuance host (body req) = true).
  { unfold reaches_issuance. now rewrite Hwf, (days_as_specified_safe _ Hspec). }
  rewrite serve_authenticated by exact Hauth. split.
  - intros reason Hissue.
    exact (handler_issuance_rejected host services clock req reason [] Hready Hissue).
  - intros result Hissue Hkey.
    exact (handler_no_key host services clock req result [] Hready Hissue Hkey).
Qed.

Lemma issuance_failure_is_500_witness :
  serve Fixture.host Fixture.open_config Scenario.services_no_key Fixture.clock
    (Fixture.request Fixture.test_payload)
  = (Responded {| status := 500; json := failure "Failed to generate API key" |},
     [apiKeyService_generateApiKey
        (issued_options Fixture.host Fixture.clock Fixture.test_payload)])
  /\ serve Fixture.host Fixture.open_config Scenario.services_issuance_down Fixture.clock
       (Fixture.request Fixture.test_payload)
     = (Responded internal_server_error,
        [apiKeyService_generateApiKey
           (issued_options Fixture.host Fixture.clock Fixture.test_payload);
         logger_error "Error in public API generate-key:"]).
Proof.
  split.
  - destruct (issuance_failure_is_500 Fixture.host Fixture.open_config
                Scenario.services_no_key Fixture.clock
                (Fixture.request Fixture.test_payload) eq_refl eq_refl
                (or_intror (ex_intro _ 30 eq_refl))) as [_ Hnone].
    apply (Hnone (VObject [("id", VString "key-1")])); reflexivity.
  - destruct (issuance_failure_is_500 Fixture.host Fixture.open_config
                Scenario.services_issuance_down Fixture.clock
                (Fixture.request Fixture.test_payload) eq_refl eq_refl
                (or_intror (ex_intro _ 30 eq_refl))) as [Hdown _].
    apply (Hdown (VString "redis unavailable")); reflexivity.
Defined.

(** X13. An authenticated request with no body ([undefined] or [null]) is
    answered 500 "Internal server error", not 400: reading the parameters
    throws, the error is logged and no service is called. *)
Theorem missing_body_is_500
    (host : Host) (config : Config) (services : Services)
    (clock : Clock) (req : Request) :
  authenticated host config clock req = true ->
  nullish (body req) = true ->
  serve host config services clock req
  = (Responded internal_server_error, [logger_error "Error in public API generate-key:"]).
Proof.
  intros Hauth Hbody. rewrite serve_authenticated by exact Hauth.
  now apply handler_no_body.
Qed.

Lemma missing_body_is_500_witness :
  serve Fixture.host Fixture.open_config Fixture.services Fixture.clock
    Scenario.bodyless_request
  = (Responded internal_server_error, [logger_error "Error in public API generate-key:"]).
Proof.
  apply (missing_body_is_500 Fixture.host Fixture.open_config Fixture.services
           Fixture.clock Scenario.bodyless_request); reflexivity.
Defined.

(** X14. A description that is given and is not a string (a number, a
    boolean, an array, an object) is not refused with a 400: with the name and
    the limits accepted, [trim] throws on it, the answer is 500 "Internal
    server error" and the issuance service is not called. *)
Theorem untrimmable_description_is_500
    (host : Host) (config : Config) (services : Services)
    (clock : Clock) (req : Request) :
  authenticated host config clock req = true ->
  nullish (body req) = false ->
  validated host (body req) = true ->
  nullish (get (body req) "description") = false ->
  typeof (get (body req) "description") <> "string" ->
  serve host config services clock req
  = (Responded internal_server_error, [logger_error "Error in public API generate-key:"]).
Proof.
  intros Hauth Hbody Hvalid Hgiven Htype. rewrite serve_authenticated by exact Hauth.
  apply handler_untrimmable; try assumption.
  destruct (get (body req) "description"); try reflexivity; try discriminate Hgiven.
  now destruct Htype.
Qed.

Lemma untrimmable_description_is_500_witness :
  serve Fixture.host Fixture.open_config Fixture.services Fixture.clock
    (Fixture.request Scenario.numeric_description_payload)
  = (Responded internal_server_error, [logger_error "Error in public API generate-key:"]).
Proof.
  apply (untrimmable_description_is_500 Fixture.host Fixture.open_config Fixture.services
           Fixture.clock (Fixture.request Scenario.numeric_description_payload));
    try reflexivity.
  discriminate.
Defined.

(** X15. The response does not depend on the notification service: two sets
    of services whose issuance service settles alike on the options of the
    request give the same response, whatever their notification services do. *)
Theorem response_ignores_notification_service
    (host : Host) (config : Config) (services services' : Services)
    (clock : Clock) (req : Request) :
  generateApiKey services (issued_options host clock (body req))
  = generateApiKey services' (issued_options host clock (body req)) ->
  fst (serve host config services clock req) = fst (serve host config services' clock req).
Proof.
  intros Hsame.
  destruct (authenticated host config clock req) eqn:Hauth.
  - rewrite !serve_run by exact Hauth. cbn [fst]. f_equal.
    unfold handler_response. now rewrite Hsame.
  - destruct (serve_unauthenticated host config clock req Hauth)
      as (code & message & added & _ & _ & Hrun).
    now rewrite !Hrun.
Qed.

Lemma response_ignores_notification_service_witness :
  fst (serve Fixture.host Fixture.open_config Fixture.services Fixture.clock
         (Fixture.request Fixture.feishu_payload))
  = fst (serve Fixture.host Fixture.open_config Fixture.services_webhook_down Fixture.clock
           (Fixture.request Fixture.feishu_payload)).
Proof.
  apply (response_ignores_notification_service Fixture.host Fixture.open_config
           Fixture.services Fixture.services_webhook_down Fixture.clock
           (Fixture.request Fixture.feishu_payload)).
  reflexivity.
Defined.

(** X16. A day count is not bounded: for an integer [n > 0] that takes the
    date beyond 8.64e15 ms from the epoch, [setDate] leaves an invalid date,
    the request is not refused and the issuance service is called with that
    invalid date as expiry. *)
Theorem out_of_range_days_give_invalid_date
    (host : Host) (config : Config) (services : Services)
    (clock : Clock) (req : Request) (n : Z) :
  authenticated host config clock req = true ->
  well_formed host (body req) = true ->
  get (body req) "expirationDays" = VNumber (of_Z n) ->
  0 < n ->
  let later := JSDate.LocalTime host (t_expiry clock) + n * JSDate.msPerDay in
  8640000000000000 < Z.abs (later - LocalTZA host later false) ->
  get (issued_options host clock (body req)) "expiresAt" = VDate None
  /\ issuance_calls (snd (serve host config services clock req))
     = [apiKeyService_generateApiKey (issued_options host clock (body req))].
Proof.
  intros Hauth Hwf Hdays Hn later Hfar. split.
  - assert (Hopt : get (issued_options host clock (body req)) "expiresAt"
                   = compute_expiresAt host (t_expiry clock)
                       (or_default (get (body req) "expirationDays") (VNumber (of_Z 30))))
      by reflexivity.
    rewrite Hopt, Hdays. cbn [or_default of_Z].
    rewrite (JSDateFacts.compute_expiresAt_days host (t_expiry clock) n Hn).
    fold later. unfold JSDate.UTC, JSDate.TimeClip.
    now apply Z.ltb_lt in Hfar as ->.
  - rewrite serve_issuance_calls, Hauth. unfold reaches_issuance.
    now rewrite Hwf, (number_days_safe _ _ Hdays).
Qed.

Lemma out_of_range_days_give_invalid_date_witness :
  get (issued_options Fixture.host Fixture.clock Fixture.far_future_payload) "expiresAt"
  = VDate None.
Proof.
  apply (out_of_range_days_give_invalid_date Fixture.host Fixture.open_config
           Fixture.services Fixture.clock (Fixture.request Fixture.far_future_payload)
           100000000000 eq_refl eq_refl eq_refl); reflexivity.
Defined.
